(** * onedrivesdk.auth_provider: the OAuth device-code authentication provider

    A shallow embedding of [src/onedrivesdk/auth_provider.py] (class
    [AuthProvider]) together with the fragment of Python it runs on:
    the values [json.loads] produces, the exceptions the built-in
    operations raise, the wall clock, the HTTP capability and the
    Session interface.  Methods are programs of a state-and-exception
    monad over the provider object and its environment. *)

From Stdlib Require Import ZArith List String Ascii Bool Lia.
From Stdlib Require DecimalString.
Import ListNotations.

Local Open Scope string_scope.
Local Open Scope Z_scope.
Set Warnings "-register-all".

(** ** Python values and exceptions *)

(** The values [json.loads] returns (and the strings and [None] the
    caller passes in).  JSON numbers are integers here: floats are not
    modelled.  A [dict] keeps its items as an association list whose first
    binding of a key is the live one. *)
Inductive PyVal : Type :=
| PNone
| PBool (b : bool)
| PInt (z : Z)
| PStr (s : string)
| PList (l : list PyVal)
| PDict (d : list (string * PyVal)).

Inductive PyExc : Type :=
| RuntimeError (msg : string)
| KeyError (key : string)
| TypeError (msg : string)
| AttributeError (msg : string)
| ValueError (msg : string)
| OtherError (name msg : string).

(** The result of evaluating an expression or running a statement: a value,
    or a raised exception. *)
Inductive Outcome (A : Type) : Type :=
| Return (a : A)
| Raise (e : PyExc).
Arguments Return {A} a.
Arguments Raise {A} e.

Definition nl : string := String (ascii_of_nat 10) EmptyString.
Definition dq : string := String (ascii_of_nat 34) EmptyString.

Definition type_name (v : PyVal) : string :=
  match v with
  | PNone => "NoneType"
  | PBool _ => "bool"
  | PInt _ => "int"
  | PStr _ => "str"
  | PList _ => "list"
  | PDict _ => "dict"
  end.

(** [v is None] *)
Definition is_None (v : PyVal) : bool :=
  match v with PNone => true | _ => false end.

Fixpoint assoc (k : string) (d : list (string * PyVal)) : option PyVal :=
  match d with
  | [] => None
  | (k', v) :: d' => if String.eqb k k' then Some v else assoc k d'
  end.

(** [v[k]] for a string key [k]. *)
Definition get_item (v : PyVal) (k : string) : Outcome PyVal :=
  match v with
  | PDict d =>
      match assoc k d with
      | Some x => Return x
      | None => Raise (KeyError k)
      end
  | PStr _ => Raise (TypeError "string indices must be integers")
  | PList _ => Raise (TypeError "list indices must be integers or slices, not str")
  | _ => Raise (TypeError ("'" ++ type_name v ++ "' object is not subscriptable"))
  end.

Definition is_substring (k s : string) : bool :=
  match String.index 0 k s with Some _ => true | None => false end.

(** [k in v] for a string [k]: key membership in a dict, element membership
    in a list, substring test in a string. *)
Definition contains (k : string) (v : PyVal) : Outcome bool :=
  match v with
  | PDict d => Return (match assoc k d with Some _ => true | None => false end)
  | PList l =>
      Return (existsb (fun x => match x with
                                | PStr s => String.eqb s k
                                | _ => false
                                end) l)
  | PStr s => Return (is_substring k s)
  | _ => Raise (TypeError ("argument of type '" ++ type_name v ++ "' is not iterable"))
  end.

(** [a + b] where [a] is a string literal. *)
Definition str_add (a : string) (b : PyVal) : Outcome string :=
  match b with
  | PStr s => Return (a ++ s)
  | _ => Raise (TypeError ("can only concatenate str (not " ++ dq
                           ++ type_name b ++ dq ++ ") to str"))
  end.

(** [v.str()]: no type of [PyVal] has an attribute named [str], so the
    attribute lookup raises before anything is called. *)
Definition call_str (v : PyVal) : Outcome PyVal :=
  Raise (AttributeError ("'" ++ type_name v ++ "' object has no attribute 'str'")).

(** *** [int(v)] *)

Definition is_space (c : ascii) : bool :=
  let n := nat_of_ascii c in
  (Nat.eqb n 32 || (Nat.leb 9 n && Nat.leb n 13))%bool.

Fixpoint lstrip (s : list ascii) : list ascii :=
  match s with
  | c :: r => if is_space c then lstrip r else s
  | [] => []
  end.

Definition strip (s : list ascii) : list ascii :=
  rev (lstrip (rev (lstrip s))).

Definition digit_of (c : ascii) : option Z :=
  let n := Z.of_nat (nat_of_ascii c) in
  if ((48 <=? n) && (n <=? 57))%bool then Some (n - 48) else None.

Fixpoint parse_digits (acc : Z) (s : list ascii) : option Z :=
  match s with
  | [] => Some acc
  | c :: r =>
      match digit_of c with
      | Some d => parse_digits (10 * acc + d) r
      | None => None
      end
  end.

Definition parse_nat (s : list ascii) : option Z :=
  match s with
  | [] => None
  | _ => parse_digits 0 s
  end.

(** Decimal literals in ASCII: surrounding white space, an optional sign,
    one or more digits. *)
Definition int_of_str (s : string) : option Z :=
  match strip (list_ascii_of_string s) with
  | "+"%char :: r => parse_nat r
  | "-"%char :: r => option_map Z.opp (parse_nat r)
  | r => parse_nat r
  end.

Definition py_int (v : PyVal) : Outcome Z :=
  match v with
  | PInt z => Return z
  | PBool b => Return (if b then 1 else 0)
  | PStr s =>
      match int_of_str s with
      | Some z => Return z
      | None => Raise (ValueError ("invalid literal for int() with base 10: '"
                                   ++ s ++ "'"))
      end
  | _ => Raise (TypeError ("int() argument must be a string, a bytes-like object"
                           ++ " or a real number, not '" ++ type_name v ++ "'"))
  end.

(** *** [str(v)] as used by [str.format] and [print] *)

Definition str_of_Z (z : Z) : string :=
  DecimalString.NilZero.string_of_int (Z.to_int z).

Section Str.
(** The [repr] of a list or dict is left to the interpreter. *)
Variable container_repr : PyVal -> string.

Definition py_str (v : PyVal) : string :=
  match v with
  | PStr s => s
  | PNone => "None"
  | PBool true => "True"
  | PBool false => "False"
  | PInt z => str_of_Z z
  | _ => container_repr v
  end.
End Str.

(** ** The environment: HTTP capability, wall clock, observable events *)

(** What [send(method=, headers=, url=, data=)] is called with. *)
Record Request : Type := {
  method : string;
  headers : list (string * string);
  url : PyVal;
  data : list (string * PyVal)
}.

Record Response : Type := { content : string }.

(** The HTTP capability ([http_provider_base.py], an external collaborator):
    [send] answers a request with a response or raises, and may change the
    capability's own state. *)
Class HttpProviderBase (H : Type) : Type := {
  send : Request -> H -> Outcome Response * H
}.

(** What a run does that an observer (or a test double) can see, in order.
    [EvCall] is a spy on method entry. *)
Inductive Event : Type :=
| EvSend (r : Request)
| EvSleep (secs : Z)
| EvPrint (line : string)
| EvCall (name : string).

(** [clock i] is what the [i]-th call of [time.time()] returns (in seconds);
    [ticks] counts the calls made so far. *)
Record World (H : Type) : Type := {
  http : H;
  clock : nat -> Z;
  ticks : nat;
  trace : list Event
}.
Arguments http {H} w.
Arguments clock {H} w.
Arguments ticks {H} w.
Arguments trace {H} w.

Definition is_send (e : Event) : bool :=
  match e with EvSend _ => true | _ => false end.

Definition is_call (name : string) (e : Event) : bool :=
  match e with EvCall n => String.eqb n name | _ => false end.

(** How many times the method [name] has been entered. *)
Definition calls (name : string) (t : list Event) : nat :=
  List.length (filter (is_call name) t).

Definition sends (t : list Event) : list Event := filter is_send t.

(** ** Sessions *)

Module SessionBase.
(** Modelled from the spec: [session_base.py] is not among the sources.
    The interface of a Session as [AuthProvider] uses it: the class is
    called with six positional arguments, the instance exposes the
    attributes [access_token], [refresh_token], [client_id] and
    [auth_token_url], [is_expired()] is a pure function of the current
    time and the stored state, and [refresh_session(...)] updates the
    instance in place.  Methods that read the clock receive the reading
    as [now]; [refresh_session] returns the instance as the call left it,
    also when it raises. *)
Class Ops (S : Type) : Type := {
  init : list PyVal -> Z -> Outcome S;
  access_token : S -> PyVal;
  refresh_token : S -> PyVal;
  client_id : S -> PyVal;
  auth_token_url : S -> PyVal;
  is_expired : S -> Z -> bool;
  refresh_session : list PyVal -> Z -> S -> Outcome unit * S
}.

(** A class object: what [session_type] is bound to. *)
Record class : Type := { instance : Type; ops : Ops instance }.
End SessionBase.

Module Session.
(** Modelled from the spec: [session.py] is not among the sources.  The
    credential record of section 3 of the specification: token type,
    absolute expiry instant (issue time plus [expires_in]), access token,
    refresh token (or [None]), client id and token endpoint. *)
Record t : Type := {
  token_type : PyVal;
  _expires_at : Z;
  access_token : PyVal;
  refresh_token : PyVal;
  client_id : PyVal;
  auth_token_url : PyVal
}.

Definition arity_error (f : string) (takes given : string) : PyExc :=
  TypeError (f ++ " takes " ++ takes ++ " positional arguments but "
               ++ given ++ " were given").

Definition build (ty ei at_ ci url rt : PyVal) (now : Z) : Outcome t :=
  match py_int ei with
  | Raise e => Raise e
  | Return n =>
      Return {| token_type := ty; _expires_at := now + n; access_token := at_;
                refresh_token := rt; client_id := ci; auth_token_url := url |}
  end.

(** Modelled from the spec: [Session(token_type, expires_in, access_token,
    client_id, auth_token_url, refresh_token=None)]; a Session is created
    only from a complete token response. *)
Definition __init__ (args : list PyVal) (now : Z) : Outcome t :=
  match args with
  | [ty; ei; at_; ci; url] => build ty ei at_ ci url PNone now
  | [ty; ei; at_; ci; url; rt] => build ty ei at_ ci url rt now
  | _ => Raise (arity_error "__init__()" "from 6 to 7"
                            (str_of_Z (Z.of_nat (S (List.length args)))))
  end.

(** Modelled from the spec: expired iff the current time has reached the
    recorded issue time plus [expires_in]. *)
Definition is_expired (s : t) (now : Z) : bool := _expires_at s <=? now.

(** Modelled from the spec: [refresh_session(expires_in, access_token,
    refresh_token)] updates the Session in place, the new expiry computed
    from now plus [expires_in].  Python refuses a call with any other
    number of positional arguments before the body runs. *)
Definition refresh_session (args : list PyVal) (now : Z) (s : t)
  : Outcome unit * t :=
  match args with
  | [ei; at_; rt] =>
      match py_int ei with
      | Raise e => (Raise e, s)
      | Return n =>
          (Return tt,
           {| token_type := token_type s; _expires_at := now + n;
              access_token := at_; refresh_token := rt;
              client_id := client_id s; auth_token_url := auth_token_url s |})
      end
  | _ => (Raise (arity_error "refresh_session()" "4"
                             (str_of_Z (Z.of_nat (S (List.length args))))), s)
  end.

#[global] Instance ops : SessionBase.Ops t := {|
  SessionBase.init := __init__;
  SessionBase.access_token := access_token;
  SessionBase.refresh_token := refresh_token;
  SessionBase.client_id := client_id;
  SessionBase.auth_token_url := auth_token_url;
  SessionBase.is_expired := is_expired;
  SessionBase.refresh_session := refresh_session
|}.

Definition cls : SessionBase.class :=
  {| SessionBase.instance := t; SessionBase.ops := ops |}.
End Session.

(** ** The state-and-exception monad *)

(** A statement runs on a state and leaves a state, whether it returns or
    raises: what was mutated before an exception stays mutated. *)
Definition M (St A : Type) : Type := St -> Outcome A * St.

Definition ret {St A} (a : A) : M St A := fun st => (Return a, st).

Definition raise {St A} (e : PyExc) : M St A := fun st => (Raise e, st).

Definition lift {St A} (o : Outcome A) : M St A := fun st => (o, st).

Definition bind {St A B} (m : M St A) (k : A -> M St B) : M St B :=
  fun st =>
    match m st with
    | (Return a, st') => k a st'
    | (Raise e, st') => (Raise e, st')
    end.

Notation "x <- m ;; k" := (bind m (fun x => k))
  (at level 61, m at next level, right associativity).
Notation "m ;;; k" := (bind m (fun _ => k))
  (at level 61, right associativity).

(** ** [AuthProvider] *)

(** An [asyncio] event loop, known by its identity only. *)
Inductive EventLoop : Type := event_loop (id : nat).

(** What the constructor asks of the interpreter it runs on:
    [sys.version_info] (major, minor, micro) and the result of
    [asyncio.get_event_loop()]. *)
Record Interpreter : Type := {
  version_info : nat * nat * nat;
  get_event_loop : Outcome EventLoop
}.

(** [v >= w] on tuples. *)
Definition version_geb (v w : nat * nat * nat) : bool :=
  let '(a, b, c) := v in
  let '(a', b', c') := w in
  ((a' <? a)%nat
   || ((a =? a')%nat && ((b' <? b)%nat || ((b =? b')%nat && (c' <=? c)%nat))))%bool.

(** The fields [__init__] sets.  [_http_provider] is a reference to the
    shared capability, whose state is the [http] component of the [World];
    [_session_type] is the class [Sess] is the instance type of. *)
Record AuthProvider (Sess : Type) : Type := {
  _client_id : PyVal;
  _tenant_id : PyVal;
  _session : option Sess;
  _auth_token_url : PyVal;
  _loop : option EventLoop
}.
Arguments _client_id {Sess} a.
Arguments _tenant_id {Sess} a.
Arguments _session {Sess} a.
Arguments _auth_token_url {Sess} a.
Arguments _loop {Sess} a.

(** [Session if session_type is None else session_type] *)
Definition resolve (session_type : option SessionBase.class) : SessionBase.class :=
  match session_type with
  | None => Session.cls
  | Some c => c
  end.

Definition login_prefix : string := "https://login.microsoftonline.com/".
Definition token_suffix : string := "/oauth2/token".

Definition __init__ (interp : Interpreter)
    (client_id tenant_id access_token : PyVal)
    (session_type : option SessionBase.class) (loop : option EventLoop)
  : Outcome (AuthProvider (SessionBase.instance (resolve session_type))) :=
  match str_add login_prefix tenant_id with
  | Raise e => Raise e
  | Return u =>
      let mk l := {| _client_id := client_id; _tenant_id := tenant_id;
                     _session := None;
                     _auth_token_url := PStr (u ++ token_suffix);
                     _loop := l |} in
      if version_geb (version_info interp) (3, 4, 0)%nat then
        match loop with
        | Some l => Return (mk (Some l))
        | None =>
            match get_event_loop interp with
            | Return l => Return (mk (Some l))
            | Raise e => Raise e
            end
        end
      else Return (mk None)
  end.

(** Modelled from the spec: [options.py] and [request_base.py] are not among
    the sources.  A header option is a name and a value; the request's
    header-injection capability [append_option] attaches one more option to
    the request. *)
Record HeaderOption : Type := { key : string; value : string }.

Record RequestBase : Type := { options : list HeaderOption }.

Definition append_option (o : HeaderOption) (r : RequestBase) : RequestBase :=
  {| options := options r ++ [o] |}.

Definition session_must_be_authenticated_request : string :=
  "Session must be authenticated " ++ nl
  ++ "                before applying authentication to a request.".

Definition session_must_be_authenticated_refresh : string :=
  "Session must be authenticated " ++ nl
  ++ "                before refreshing token.".

Definition session_must_be_authenticated_redeem : string :=
  "Session must be authenticated" ++ nl
  ++ "                before refreshing token.".

Definition refresh_token_not_present : string := "Refresh token not present.".

Definition timed_out : string := "Timed out waiting for user to verify".

(** The errors by the names the specification gives them. *)
Definition Timeout : PyExc := RuntimeError timed_out.
Definition MissingRefreshToken : PyExc := RuntimeError refresh_token_not_present.

Definition is_NotAuthenticated (e : PyExc) : bool :=
  match e with
  | RuntimeError m =>
      (String.eqb m session_must_be_authenticated_request
       || String.eqb m session_must_be_authenticated_refresh
       || String.eqb m session_must_be_authenticated_redeem)%bool
  | _ => false
  end.

Definition form_headers : list (string * string) :=
  [("Content-Type", "application/x-www-form-urlencoded")].

Section Methods.
Context {H : Type} {HP : HttpProviderBase H}.
Context {Sess : Type} {SO : SessionBase.Ops Sess}.

(** [json.loads] of a response body: the parsed value, or the exception
    the parser raises. *)
Variable json_loads : string -> Outcome PyVal.
Variable container_repr : PyVal -> string.

(** The provider object and the world around it. *)
Record State : Type := { self : AuthProvider Sess; world : World H }.

Definition with_session (s : option Sess) (st : State) : State :=
  {| self := {| _client_id := _client_id (self st);
                _tenant_id := _tenant_id (self st);
                _session := s;
                _auth_token_url := _auth_token_url (self st);
                _loop := _loop (self st) |};
     world := world st |}.

Definition log (e : Event) (st : State) : State :=
  {| self := self st;
     world := {| http := http (world st); clock := clock (world st);
                 ticks := ticks (world st);
                 trace := trace (world st) ++ [e] |} |}.

Definition with_http (h : H) (st : State) : State :=
  {| self := self st;
     world := {| http := h; clock := clock (world st);
                 ticks := ticks (world st); trace := trace (world st) |} |}.

(** [time.time()] *)
Definition time_time : M State Z :=
  fun st =>
    (Return (clock (world st) (ticks (world st))),
     {| self := self st;
        world := {| http := http (world st); clock := clock (world st);
                    ticks := S (ticks (world st));
                    trace := trace (world st) |} |}).

(** [time.sleep(v)] *)
Definition time_sleep (v : PyVal) : M State unit :=
  match v with
  | PInt z =>
      if z <? 0 then raise (ValueError "sleep length must be non-negative")
      else fun st => (Return tt, log (EvSleep z) st)
  | PBool b => fun st => (Return tt, log (EvSleep (if b then 1 else 0)) st)
  | _ => raise (TypeError ("'" ++ type_name v
                               ++ "' object cannot be interpreted as an integer"))
  end.

(** [print(v)] *)
Definition print (v : PyVal) : M State unit :=
  fun st => (Return tt, log (EvPrint (py_str container_repr v)) st).

(** [self._http_provider.send(method=.., headers=.., url=.., data=..)] *)
Definition http_send (r : Request) : M State Response :=
  fun st =>
    let st1 := log (EvSend r) st in
    let '(o, h) := send r (http (world st1)) in
    (o, with_http h st1).

Definition spy (name : string) : M State unit :=
  fun st => (Return tt, log (EvCall name) st).

(** Reading an attribute of [self]. *)
Definition read {A} (f : AuthProvider Sess -> A) : M State A :=
  fun st => (Return (f (self st)), st).

Definition get_session : M State (option Sess) := read _session.

Definition none_has_no (attr : string) : PyExc :=
  AttributeError ("'NoneType' object has no attribute '" ++ attr ++ "'").

(** [self._session.is_expired()] *)
Definition session_is_expired : M State bool :=
  s <- get_session ;;
  match s with
  | None => raise (none_has_no "is_expired")
  | Some s => now <- time_time ;; ret (SessionBase.is_expired s now)
  end.

(** [self._session.refresh_session(args)]: the Session is updated in
    place. *)
Definition session_refresh_session (args : list PyVal) : M State unit :=
  s <- get_session ;;
  match s with
  | None => raise (none_has_no "refresh_session")
  | Some s =>
      now <- time_time ;;
      fun st =>
        let '(o, s') := SessionBase.refresh_session args now s in
        (o, with_session (Some s') st)
  end.

(** The form [refresh_token] posts, and where. *)
Definition refresh_request (s : Sess) : Request :=
  {| method := "POST"; headers := form_headers;
     url := SessionBase.auth_token_url s;
     data := [("refresh_token", SessionBase.refresh_token s);
              ("client_id", SessionBase.client_id s);
              ("grant_type", PStr "refresh_token")] |}.

(** The form [redeem_refresh_token] posts, and where. *)
Definition redeem_request (auth_token_url : PyVal) (s : Sess)
    (resource : PyVal) : Request :=
  {| method := "POST"; headers := form_headers;
     url := auth_token_url;
     data := [("client_id", SessionBase.client_id s);
              ("refresh_token", SessionBase.refresh_token s);
              ("grant_type", PStr "refresh_token");
              ("resource", resource)] |}.

Definition refresh_token : M State unit :=
  spy "refresh_token" ;;;
  s <- get_session ;;
  match s with
  | None => raise (RuntimeError session_must_be_authenticated_refresh)
  | Some s =>
      if is_None (SessionBase.refresh_token s) then
        raise (RuntimeError refresh_token_not_present)
      else
        response <- http_send (refresh_request s) ;;
        rcont <- lift (json_loads (content response)) ;;
        expires_in <- lift (get_item rcont "expires_in") ;;
        access_token <- lift (get_item rcont "access_token") ;;
        refresh_token <- lift (get_item rcont "refresh_token") ;;
        session_refresh_session [expires_in; access_token; refresh_token]
  end.

Definition redeem_refresh_token (resource : PyVal) : M State unit :=
  s <- get_session ;;
  match s with
  | None => raise (RuntimeError session_must_be_authenticated_redeem)
  | Some s =>
      if is_None (SessionBase.refresh_token s) then
        raise (RuntimeError refresh_token_not_present)
      else
        auth_token_url <- read _auth_token_url ;;
        response <- http_send (redeem_request auth_token_url s resource) ;;
        rcont <- lift (json_loads (content response)) ;;
        expires_in <- lift (get_item rcont "expires_in") ;;
        access_token <- lift (get_item rcont "access_token") ;;
        refresh_token <- lift (get_item rcont "refresh_token") ;;
        session_refresh_session [expires_in; PStr ""; access_token; refresh_token]
  end.

Definition bearer (token : PyVal) : HeaderOption :=
  {| key := "Authorization";
     value := "bearer " ++ py_str container_repr token |}.

(** The request is the caller's object: it comes back as the call left
    it, also when the call raises. *)
Definition authenticate_request (request : RequestBase) (st : State)
  : Outcome unit * RequestBase * State :=
  match _session (self st) with
  | None =>
      (Raise (RuntimeError session_must_be_authenticated_request), request, st)
  | Some _ =>
      match (expired <- session_is_expired ;;
             if expired : bool then refresh_token else ret tt) st with
      | (Raise e, st1) => (Raise e, request, st1)
      | (Return _, st1) =>
          match _session (self st1) with
          | None => (Raise (none_has_no "access_token"), request, st1)
          | Some s1 =>
              (Return tt,
               append_option (bearer (SessionBase.access_token s1)) request,
               st1)
          end
      end
  end.

(** *** [authenticate]: the device-code flow *)

(** A statement that may also fail to terminate: [None] when the fuel
    given to its loop does not suffice. *)
Definition MF (A : Type) : Type := State -> option (Outcome A * State).

Definition total {A} (m : M State A) : MF A := fun st => Some (m st).

Definition bindF {A B} (m : MF A) (k : A -> MF B) : MF B :=
  fun st =>
    match m st with
    | None => None
    | Some (Return a, st') => k a st'
    | Some (Raise e, st') => Some (Raise e, st')
    end.

(** The device-code initiation form. *)
Definition init_request (client_id auth_url resource : PyVal) : Request :=
  {| method := "POST"; headers := form_headers; url := auth_url;
     data := [("client_id", client_id); ("resource", resource)] |}.

(** The device-code polling form. *)
Definition poll_request (client_id auth_url resource device_code : PyVal)
  : Request :=
  {| method := "POST"; headers := form_headers; url := auth_url;
     data := [("resource", resource); ("client_id", client_id);
              ("grant_type", PStr "device_code"); ("code", device_code)] |}.

(** Lines 148-166: the initiation request, its four fields, the message. *)
Definition authenticate_init (resource : PyVal)
  : M State (PyVal * PyVal * PyVal * PyVal) :=
  client_id <- read _client_id ;;
  auth_url <- read _auth_token_url ;;
  response <- http_send (init_request client_id auth_url resource) ;;
  rcont <- lift (json_loads (content response)) ;;
  device_code <- lift (get_item rcont "device_code") ;;
  expires_in <- lift (get_item rcont "expires_in") ;;
  interval <- lift (get_item rcont "interval") ;;
  m <- lift (get_item rcont "message") ;;
  message <- lift (call_str m) ;;
  print message ;;;
  ret (auth_url, device_code, expires_in, interval).

(** The body of the [try]: one poll. *)
Definition poll_once (request : Request) : M State PyVal :=
  response <- http_send request ;;
  lift (json_loads (content response)).

(** Lines 179-187: [while time.time() < t_end: try: ... except: sleep]. *)
Fixpoint poll_loop (fuel : nat) (t_end : Z) (interval : PyVal)
    (request : Request) (rcont : PyVal) : MF PyVal :=
  match fuel with
  | O => fun _ => None
  | S fuel' =>
      bindF (total time_time) (fun now =>
        if now <? t_end then
          fun st =>
            match poll_once request st with
            | (Return v, st') =>
                poll_loop fuel' t_end interval request v st'
            | (Raise _, st') =>
                bindF (total (time_sleep interval))
                      (fun _ => poll_loop fuel' t_end interval request rcont)
                      st'
            end
        else total (ret rcont))
  end.

(** Lines 192-197: the new Session replaces the stored one. *)
Definition new_session (rcont : PyVal) : M State unit :=
  token_type <- lift (get_item rcont "token_type") ;;
  expires_in <- lift (get_item rcont "expires_in") ;;
  access_token <- lift (get_item rcont "access_token") ;;
  client_id <- read _client_id ;;
  auth_token_url <- read _auth_token_url ;;
  has <- lift (contains "refresh_token" rcont) ;;
  refresh_token <- (if has : bool then lift (get_item rcont "refresh_token")
                    else ret PNone) ;;
  now <- time_time ;;
  s <- lift (SessionBase.init [token_type; expires_in; access_token;
                               client_id; auth_token_url; refresh_token] now) ;;
  fun st => (Return tt, with_session (Some s) st).

(** Lines 168-197: the polling request, the deadline, the loop, the
    resolution. *)
Definition authenticate_poll (fuel : nat)
    (resource auth_url device_code expires_in interval : PyVal) : MF unit :=
  bindF (total (read _client_id)) (fun client_id =>
    let request := poll_request client_id auth_url resource device_code in
    bindF (total time_time) (fun start =>
    bindF (total (lift (py_int expires_in))) (fun n =>
    let t_end := start + n in
    bindF (poll_loop fuel t_end interval request PNone) (fun rcont =>
    bindF (total time_time) (fun now =>
      if now >=? t_end then total (raise Timeout)
      else total (new_session rcont)))))).

Definition authenticate (fuel : nat) (resource : PyVal) : MF unit :=
  bindF (total (authenticate_init resource))
        (fun '(auth_url, device_code, expires_in, interval) =>
           authenticate_poll fuel resource auth_url device_code expires_in
                             interval).
End Methods.

(** A call ended by raising [e] and left the provider object, its Session
    included, as it was in [st]. *)
Definition fails_unchanged {H Sess A} (r : Outcome A * @State H Sess)
    (st : @State H Sess) (e : PyExc) : Prop :=
  fst r = Raise e /\ self (snd r) = self st.

(** A clock that never runs backwards. *)
Definition monotone (clk : nat -> Z) : Prop :=
  forall i j, (i <= j)%nat -> clk i <= clk j.

(** [time.sleep(v)] accepts [v]. *)
Definition sleepable (v : PyVal) : bool :=
  match v with
  | PInt z => 0 <=? z
  | PBool _ => true
  | _ => false
  end.

(** Same provider, same clock, same number of clock readings. *)
Definition framed {H Sess} (st st' : @State H Sess) : Prop :=
  self st' = self st
  /\ clock (world st') = clock (world st)
  /\ ticks (world st') = ticks (world st).

Definition token_keys : list string :=
  ["expires_in"; "access_token"; "refresh_token"].

(** ** Test doubles *)

(** An HTTP capability that plays a script: each [send] consumes the next
    outcome; when the script is over the connection fails. *)
Definition Script : Type := list (Outcome Response).

Definition connection_error : PyExc :=
  OtherError "ConnectionError" "connection refused".

#[global] Instance scripted : HttpProviderBase Script := {|
  send := fun _ h =>
    match h with
    | [] => (Raise connection_error, [])
    | o :: h' => (o, h')
    end
|}.

(** An HTTP capability that fails every request. *)
#[global] Instance unreachable_host : HttpProviderBase unit := {|
  send := fun _ h => (Raise connection_error, h)
|}.

(** A parser that knows the bodies of a table and rejects every other. *)
Definition parse_table (table : list (string * PyVal)) (body : string)
  : Outcome PyVal :=
  match assoc body table with
  | Some v => Return v
  | None => Raise (ValueError "Expecting value: line 1 column 1 (char 0)")
  end.

Definition no_repr (v : PyVal) : string := "<" ++ type_name v ++ ">".

(** ** Concrete runs *)

Module Demo.
Definition device_code_response : PyVal :=
  PDict [("device_code", PStr "dc-1"); ("user_code", PStr "ABCD");
         ("verification_url", PStr "https://aka.ms/devicelogin");
         ("expires_in", PInt 900); ("interval", PInt 5);
         ("message", PStr "To sign in, open the page and enter ABCD.")].

Definition short_lived_response : PyVal :=
  PDict [("device_code", PStr "dc-1"); ("expires_in", PInt 1);
         ("interval", PInt 1); ("message", PStr "Enter ABCD.")].

Definition token_response : PyVal :=
  PDict [("token_type", PStr "Bearer"); ("expires_in", PStr "3600");
         ("access_token", PStr "a1"); ("refresh_token", PStr "r1")].

(** The bodies the fake endpoint serves, by name, with what [json.loads]
    makes of each. *)
Definition bodies : list (string * PyVal) :=
  [("device_code.json", device_code_response);
   ("short_lived.json", short_lived_response);
   ("token.json", token_response);
   ("message_only.json", PDict [("message", PStr "Enter ABCD.")])].

Definition loads : string -> Outcome PyVal := parse_table bodies.

Definition ok (body : string) : Outcome Response :=
  Return {| content := body |}.

Definition resource : PyVal := PStr "https://res".

Definition tenant_url : PyVal :=
  PStr "https://login.microsoftonline.com/contoso/oauth2/token".

Definition provider (session : option Session.t) : AuthProvider Session.t :=
  {| _client_id := PStr "client-1"; _tenant_id := PStr "contoso";
     _session := session; _auth_token_url := tenant_url;
     _loop := Some (event_loop 0) |}.

(** A clock that reads [start] first and advances [step] seconds between
    two readings. *)
Definition steady (start step : Z) (i : nat) : Z := start + step * Z.of_nat i.

Definition state {H} (session : option Session.t) (h : H) (clk : nat -> Z)
  : @State H Session.t :=
  {| self := provider session;
     world := {| http := h; clock := clk; ticks := 0; trace := [] |} |}.

(** A Session issued at time 0 for 3600 seconds by another endpoint. *)
Definition session (refresh_token : PyVal) : Session.t :=
  {| Session.token_type := PStr "Bearer"; Session._expires_at := 3600;
     Session.access_token := PStr "a0";
     Session.refresh_token := refresh_token;
     Session.client_id := PStr "client-1";
     Session.auth_token_url := PStr "https://login.example/token" |}.

(** No Session, an endpoint that serves nothing. *)
Definition unauthenticated : @State Script Session.t :=
  state None [] (steady 0 1).

(** An expired Session without a refresh token. *)
Definition stale : @State Script Session.t :=
  state (Some (session PNone)) [] (steady 4000 1).

(** A Session with refresh token [r0], still valid at time 0 and expired at
    time 4000; the endpoint serves one token response. *)
Definition signed_in (now : Z) : @State Script Session.t :=
  state (Some (session (PStr "r0"))) [ok "token.json"] (steady now 1).

(** The same Session, the endpoint out of reach. *)
Definition cut_off : @State unit Session.t :=
  state (Some (session (PStr "r0"))) tt (steady 0 1).

Definition python3 : Interpreter :=
  {| version_info := (3, 8, 10)%nat; get_event_loop := Return (event_loop 0) |}.

(** What a run is judged by: its outcome, the Session it leaves and the
    requests it sent. *)
Definition view {H A} (r : option (Outcome A * @State H Session.t)) :=
  option_map (fun r => (fst r, _session (self (snd r)),
                        sends (trace (world (snd r))))) r.

Definition poll_form : Request :=
  {| method := "POST"; headers := form_headers; url := tenant_url;
     data := [("resource", resource); ("client_id", PStr "client-1");
              ("grant_type", PStr "device_code"); ("code", PStr "dc-1")] |}.

Definition init_form : Request :=
  {| method := "POST"; headers := form_headers; url := tenant_url;
     data := [("client_id", PStr "client-1"); ("resource", resource)] |}.
End Demo.

(** ** The rest of [AuthProvider] *)

(** *** Properties and their setters *)

Definition client_id {Sess} (p : AuthProvider Sess) : PyVal := _client_id p.

Definition set_client_id {Sess} (v : PyVal) (p : AuthProvider Sess)
  : AuthProvider Sess :=
  {| _client_id := v; _tenant_id := _tenant_id p; _session := _session p;
     _auth_token_url := _auth_token_url p; _loop := _loop p |}.

Definition tenant_id {Sess} (p : AuthProvider Sess) : PyVal := _tenant_id p.

Definition set_tenant_id {Sess} (v : PyVal) (p : AuthProvider Sess)
  : AuthProvider Sess :=
  {| _client_id := _client_id p; _tenant_id := v; _session := _session p;
     _auth_token_url := _auth_token_url p; _loop := _loop p |}.

(** The access token is not stored in the provider: it is the Session's, or
    [None] without a Session. *)
Definition access_token {Sess} {SO : SessionBase.Ops Sess}
    (p : AuthProvider Sess) : PyVal :=
  match _session p with
  | Some s => SessionBase.access_token s
  | None => PNone
  end.

Definition auth_token_url {Sess} (p : AuthProvider Sess) : PyVal :=
  _auth_token_url p.

Definition set_auth_token_url {Sess} (v : PyVal) (p : AuthProvider Sess)
  : AuthProvider Sess :=
  {| _client_id := _client_id p; _tenant_id := _tenant_id p;
     _session := _session p; _auth_token_url := v; _loop := _loop p |}.

(** *** [urlencode] (urllib.parse, Python 3.7 and later)

    Strings stand for their UTF-8 bytes, which is what [quote] works on. *)

Definition in_range (lo hi : nat) (c : ascii) : bool :=
  (Nat.leb lo (nat_of_ascii c) && Nat.leb (nat_of_ascii c) hi)%bool.

(** The bytes [quote] never escapes: letters, digits and [_.-~]. *)
Definition always_safe (c : ascii) : bool :=
  (in_range 65 90 c || in_range 97 122 c || in_range 48 57 c
   || Ascii.eqb c "_" || Ascii.eqb c "." || Ascii.eqb c "-"
   || Ascii.eqb c "~")%bool.

Definition hex_digit (n : nat) : ascii :=
  if Nat.ltb n 10 then ascii_of_nat (48 + n) else ascii_of_nat (55 + n).

(** ['%{:02X}'.format(byte)] *)
Definition percent (c : ascii) : string :=
  String "%" (String (hex_digit (nat_of_ascii c / 16))
                     (String (hex_digit (nat_of_ascii c mod 16)) EmptyString)).

(** [quote(s, safe)]: every byte that is neither always safe nor in [safe]
    becomes its percent escape. *)
Fixpoint quote (safe : ascii -> bool) (s : string) : string :=
  match s with
  | EmptyString => EmptyString
  | String c r =>
      (if (always_safe c || safe c)%bool then String c EmptyString
       else percent c) ++ quote safe r
  end.

Fixpoint has_space (s : string) : bool :=
  match s with
  | EmptyString => false
  | String c r => (Ascii.eqb c " " || has_space r)%bool
  end.

(** [s.replace(' ', '+')] *)
Fixpoint space_to_plus (s : string) : string :=
  match s with
  | EmptyString => EmptyString
  | String c r =>
      String (if Ascii.eqb c " " then "+"%char else c) (space_to_plus r)
  end.

(** [quote_plus(s)]: without a space, plain [quote]; with one, [quote] with
    the space declared safe, and the spaces replaced afterwards. *)
Definition quote_plus (s : string) : string :=
  if has_space s then space_to_plus (quote (fun c => Ascii.eqb c " ") s)
  else quote (fun _ => false) s.

Fixpoint join (sep : string) (l : list string) : string :=
  match l with
  | [] => EmptyString
  | [x] => x
  | x :: r => x ++ sep ++ join sep r
  end.

(** [urlencode(params)] for a dict with string keys: each value goes through
    [str] and [quote_plus], the pairs are joined in the order of the
    dict. *)
Definition urlencode (container_repr : PyVal -> string)
    (params : list (string * PyVal)) : string :=
  join "&" (map (fun kv => quote_plus (fst kv) ++ "="
                           ++ quote_plus (py_str container_repr (snd kv)))
                params).

(** [get_auth_url(resource)]: the format of the token URL and the encoded
    query. *)
Definition get_auth_url {Sess} (container_repr : PyVal -> string)
    (p : AuthProvider Sess) (resource : PyVal) : string :=
  py_str container_repr (_auth_token_url p) ++ "?"
  ++ urlencode container_repr
       [("client_id", client_id p); ("resource", resource)].

(** What the receiving side does with a query value ([unquote_plus]): a
    plus is a space, a percent escape is its byte. *)
Definition hex_value (c : ascii) : option nat :=
  if in_range 48 57 c then Some (nat_of_ascii c - 48)%nat
  else if in_range 65 70 c then Some (nat_of_ascii c - 55)%nat
  else if in_range 97 102 c then Some (nat_of_ascii c - 87)%nat
  else None.

Fixpoint unquote_plus (s : string) : string :=
  match s with
  | EmptyString => EmptyString
  | String c r =>
      if Ascii.eqb c "+" then String " " (unquote_plus r)
      else if Ascii.eqb c "%" then
        match r with
        | String h (String l r') =>
            match hex_value h, hex_value l with
            | Some a, Some b =>
                String (ascii_of_nat (16 * a + b)) (unquote_plus r')
            | _, _ => String c (unquote_plus r)
            end
        | _ => String c (unquote_plus r)
        end
      else String c (unquote_plus r)
  end.

(** The characters an encoded query value is made of. *)
Definition query_char (c : ascii) : bool :=
  (always_safe c || Ascii.eqb c "%" || Ascii.eqb c "+")%bool.

Fixpoint all_chars (f : ascii -> bool) (s : string) : bool :=
  match s with
  | EmptyString => true
  | String c r => (f c && all_chars f r)%bool
  end.

(** *** Saving and loading the Session *)

Module SessionStore.
(** Modelled from the spec: the persistence half of [session_base.py] is not
    among the sources.  [save_session] is a method of the Session,
    [load_session] a method of the Session class that returns a Session;
    both take keyword options, work on a backing store [D], and may
    raise. *)
Class Ops (S D : Type) : Type := {
  save_session : list (string * PyVal) -> S -> D -> Outcome unit * S * D;
  load_session : list (string * PyVal) -> D -> Outcome S * D
}.
End SessionStore.

Definition session_must_be_authenticated_save : string :=
  "Session must be authenticated before" ++ nl
  ++ "            it can be saved. ".

Section Persistence.
Context {H Sess D : Type} {PO : SessionStore.Ops Sess D}.

(** The provider, its world, and the backing store of the Sessions. *)
Record Stored : Type := { state : @State H Sess; store : D }.

Definition save_session (kwargs : list (string * PyVal)) : M Stored unit :=
  fun ps =>
    match _session (self (state ps)) with
    | None => (Raise (RuntimeError session_must_be_authenticated_save), ps)
    | Some s =>
        let '(o, s', d) := SessionStore.save_session kwargs s (store ps) in
        (o, {| state := with_session (Some s') (state ps); store := d |})
    end.

Definition load_session (kwargs : list (string * PyVal)) : M Stored unit :=
  fun ps =>
    match SessionStore.load_session kwargs (store ps) with
    | (Return s, d) =>
        (Return tt, {| state := with_session (Some s) (state ps); store := d |})
    | (Raise e, d) => (Raise e, {| state := state ps; store := d |})
    end.
End Persistence.

(** *** What the properties are stated with *)

(** The provider's own settings: everything but the Session. *)
Definition same_config {Sess} (p q : AuthProvider Sess) : Prop :=
  _client_id q = _client_id p
  /\ _tenant_id q = _tenant_id p
  /\ _auth_token_url q = _auth_token_url p
  /\ _loop q = _loop p.

Definition is_str (v : PyVal) : bool :=
  match v with PStr _ => true | _ => false end.

Definition has_session {Sess} (p : AuthProvider Sess) : bool :=
  match _session p with Some _ => true | None => false end.

(** An event a token endpoint and a terminal can live with: a request is a
    form-encoded POST, and nothing is printed. *)
Definition form_post (e : Event) : Prop :=
  match e with
  | EvSend r => method r = "POST" /\ headers r = form_headers
  | EvPrint _ => False
  | _ => True
  end.

(** A state reached from [st]: settings kept, trace grown by form POSTs. *)
Definition reached {H Sess} (st st' : @State H Sess) : Prop :=
  same_config (self st) (self st')
  /\ exists t, trace (world st') = (trace (world st) ++ t)%list
               /\ Forall form_post t.


(** What a poll made of an answer: the parsed body, if there is one. *)
Definition parsed (json_loads : string -> Outcome PyVal)
    (o : Outcome Response) : option PyVal :=
  match o with
  | Return r =>
      match json_loads (content r) with
      | Return v => Some v
      | Raise _ => None
      end
  | Raise _ => None
  end.




(** *** More test doubles *)

Module Fixtures.
(** A store that keeps one Session per value of the option [path]. *)
Definition Shelf : Type := list (string * Session.t).

Fixpoint lookup (k : string) (d : Shelf) : option Session.t :=
  match d with
  | [] => None
  | (k', v) :: d' => if String.eqb k k' then Some v else lookup k d'
  end.

Definition path_of (kwargs : list (string * PyVal)) : Outcome string :=
  match assoc "path" kwargs with
  | Some (PStr p) => Return p
  | Some v => Raise (TypeError ("expected str, not " ++ type_name v))
  | None => Raise (TypeError "missing keyword argument 'path'")
  end.

#[global] Instance shelf : SessionStore.Ops Session.t Shelf := {|
  SessionStore.save_session := fun kwargs s d =>
    match path_of kwargs with
    | Return p => (Return tt, s, (p, s) :: d)
    | Raise e => (Raise e, s, d)
    end;
  SessionStore.load_session := fun kwargs d =>
    match path_of kwargs with
    | Return p =>
        match lookup p d with
        | Some s => (Return s, d)
        | None => (Raise (OtherError "FileNotFoundError" p), d)
        end
    | Raise e => (Raise e, d)
    end
|}.

Definition at_path (p : string) : list (string * PyVal) := [("path", PStr p)].

(** The clock is set back by an hour after its third reading. *)
Definition set_back (i : nat) : Z :=
  if Nat.leb i 2 then Z.of_nat i else Z.of_nat i - 3600.

Definition python2 : Interpreter :=
  {| version_info := (2, 7, 18)%nat;
     get_event_loop := Raise (RuntimeError "no running event loop") |}.

Definition no_loop : Interpreter :=
  {| version_info := (3, 8, 10)%nat;
     get_event_loop := Raise (RuntimeError "There is no current event loop") |}.
End Fixtures.

(** * Properties *)

Example int_of_str_3600 : py_int (PStr " 3600 ") = Return 3600.
Proof. reflexivity. Qed.

Example int_of_str_neg : py_int (PStr "-12") = Return (-12).
Proof. reflexivity. Qed.

Example int_of_str_bad :
  int_of_str "12a" = None /\ int_of_str "" = None /\ int_of_str "+" = None.
Proof. repeat split; reflexivity. Qed.

Example str_of_Z_ex :
  str_of_Z 3600 = "3600" /\ str_of_Z 0 = "0" /\ str_of_Z (-7) = "-7".
Proof. repeat split; reflexivity. Qed.

Lemma is_None_spec (v : PyVal) : is_None v = true <-> v = PNone.
Proof. destruct v; simpl; split; congruence. Qed.

Lemma is_None_false (v : PyVal) : v <> PNone -> is_None v = false.
Proof. destruct v; simpl; congruence. Qed.

(** ** What a run leaves of the trace *)

Lemma sends_app (t u : list Event) :
  sends (t ++ u) = (sends t ++ sends u)%list.
Proof. unfold sends. apply filter_app. Qed.

Lemma calls_app (name : string) (t u : list Event) :
  calls name (t ++ u) = (calls name t + calls name u)%nat.
Proof. unfold calls. rewrite filter_app. apply List.length_app. Qed.

Lemma calls_spy (name : string) (t : list Event) :
  calls name (t ++ [EvCall name]) = S (calls name t).
Proof.
  rewrite calls_app. unfold calls at 2. simpl. rewrite String.eqb_refl.
  simpl. lia.
Qed.

Lemma calls_send (name : string) (t : list Event) (r : Request) :
  calls name (t ++ [EvSend r]) = calls name t.
Proof. rewrite calls_app. unfold calls at 2. simpl. lia. Qed.

Ltac unfold_monad :=
  unfold bind, ret, raise, lift, spy, get_session, read, http_send,
    time_time, log, with_http, with_session in *.

Section Properties.
Context {H : Type} {HP : HttpProviderBase H}.
Context {Sess : Type} {SO : SessionBase.Ops Sess}.
Variable json_loads : string -> Outcome PyVal.
Variable container_repr : PyVal -> string.

(** C5: without a Session, [authenticate_request] raises NotAuthenticated;
    the request and the whole state, the HTTP capability included, are as
    they were: nothing was sent and no header was appended. *)
Theorem authenticate_request_without_session (request : RequestBase) (st : @State H Sess) :
  _session (self st) = None ->
  exists e,
    authenticate_request json_loads container_repr request st = (Raise e, request, st)
    /\ e = RuntimeError session_must_be_authenticated_request
    /\ is_NotAuthenticated e = true.
Proof.
  intros Hs. eexists. unfold authenticate_request.
  rewrite Hs. repeat split.
Qed.

(** The state [refresh_token] fails in when a precondition does not hold:
    the entry of the method was seen, nothing else happened. *)
Lemma spy_keeps (name : string) (st : @State H Sess) :
  self (log (EvCall name) st) = self st
  /\ http (world (log (EvCall name) st)) = http (world st)
  /\ sends (trace (world (log (EvCall name) st))) = sends (trace (world st)).
Proof.
  unfold log; simpl. rewrite sends_app. simpl. rewrite app_nil_r. auto.
Qed.

(** C6: [refresh_token()] raises NotAuthenticated when there is no
    Session and MissingRefreshToken when the Session has no refresh token;
    in both cases the provider (its Session included) and the HTTP
    capability are unchanged and no request was sent. *)
Theorem refresh_token_preconditions (st : @State H Sess) :
  (_session (self st) = None ->
   exists st',
     refresh_token json_loads st = (Raise (RuntimeError session_must_be_authenticated_refresh), st')
     /\ is_NotAuthenticated (RuntimeError session_must_be_authenticated_refresh) = true
     /\ self st' = self st
     /\ http (world st') = http (world st)
     /\ sends (trace (world st')) = sends (trace (world st)))
  /\ (forall s, _session (self st) = Some s ->
       SessionBase.refresh_token s = PNone ->
       exists st',
         refresh_token json_loads st = (Raise MissingRefreshToken, st')
         /\ self st' = self st
         /\ http (world st') = http (world st)
         /\ sends (trace (world st')) = sends (trace (world st))).
Proof.
  split.
  - intros Hs. exists (log (EvCall "refresh_token") st).
    split; [|split; [reflexivity | apply spy_keeps]].
    unfold refresh_token, bind, spy, get_session, read.
    unfold log at 1 2; simpl. rewrite Hs. reflexivity.
  - intros s Hs Hr. exists (log (EvCall "refresh_token") st).
    split; [|apply spy_keeps].
    unfold refresh_token, bind, spy, get_session, read.
    unfold log at 1 2; simpl. rewrite Hs, Hr. reflexivity.
Qed.

Ltac token_call Hs Hr :=
  unfold refresh_token, redeem_refresh_token, session_refresh_session;
  unfold_monad; simpl; rewrite Hs; simpl;
  rewrite (is_None_false _ Hr); simpl.

Ltac split_match :=
  match goal with
  | |- context [send ?r ?h] => destruct (send r h) as [? ?] eqn:?
  | |- context [SessionBase.refresh_session ?a ?n ?x] =>
      destruct (SessionBase.refresh_session a n x) as [? ?] eqn:?
  | |- context [match ?x with _ => _ end] => destruct x eqn:?
  end.

(** C7: the request [refresh_token()] sends is a POST of the form
    {refresh_token, client_id, grant_type: refresh_token} to the Session's
    stored [auth_token_url]; the request [redeem_refresh_token(resource)]
    sends is a POST of {client_id, refresh_token, grant_type:
    refresh_token, resource} to the provider's [auth_token_url]; each
    sends exactly that one request, and when the two URLs differ so do
    the endpoints contacted.  The request is handed to the HTTP
    capability: the capability each call leaves is the one [send] returned
    for that request, and what [send] raises is raised by the call. *)
Theorem refresh_and_redeem_endpoints (st : @State H Sess) (s : Sess)
    (resource : PyVal) :
  _session (self st) = Some s ->
  SessionBase.refresh_token s <> PNone ->
  let r1 := {| method := "POST"; headers := form_headers;
               url := SessionBase.auth_token_url s;
               data := [("refresh_token", SessionBase.refresh_token s);
                        ("client_id", SessionBase.client_id s);
                        ("grant_type", PStr "refresh_token")] |} in
  let r2 := {| method := "POST"; headers := form_headers;
               url := _auth_token_url (self st);
               data := [("client_id", SessionBase.client_id s);
                        ("refresh_token", SessionBase.refresh_token s);
                        ("grant_type", PStr "refresh_token");
                        ("resource", resource)] |} in
  sends (trace (world (snd (refresh_token json_loads st))))
  = (sends (trace (world st)) ++ [EvSend r1])%list
  /\ sends (trace (world (snd (redeem_refresh_token json_loads resource st))))
     = (sends (trace (world st)) ++ [EvSend r2])%list
  /\ (SessionBase.auth_token_url s <> _auth_token_url (self st) ->
      url r1 <> url r2 /\ EvSend r1 <> EvSend r2)
  /\ http (world (snd (refresh_token json_loads st)))
     = snd (send r1 (http (world st)))
  /\ http (world (snd (redeem_refresh_token json_loads resource st)))
     = snd (send r2 (http (world st)))
  /\ (forall e, fst (send r1 (http (world st))) = Raise e ->
        fst (refresh_token json_loads st) = Raise e)
  /\ (forall e, fst (send r2 (http (world st))) = Raise e ->
        fst (redeem_refresh_token json_loads resource st) = Raise e).
Proof.
  intros Hs Hr r1 r2. split; [|split; [|split; [|split; [|split; [|split]]]]].
  - token_call Hs Hr. fold r1. unfold refresh_request. fold r1.
    repeat (split_match; simpl);
      rewrite !sends_app; simpl; rewrite app_nil_r; reflexivity.
  - token_call Hs Hr. unfold redeem_request. fold r2.
    repeat (split_match; simpl);
      rewrite !sends_app; simpl; reflexivity.
  - intros Hne. split; [exact Hne|]. intros Heq. apply Hne.
    injection Heq. auto.
  - token_call Hs Hr. unfold refresh_request. fold r1.
    destruct (send r1 (http (world st))) as [o h'] eqn:Hsend. simpl.
    repeat (split_match; simpl); reflexivity.
  - token_call Hs Hr. unfold redeem_request. fold r2.
    destruct (send r2 (http (world st))) as [o h'] eqn:Hsend. simpl.
    repeat (split_match; simpl); reflexivity.
  - intros e. token_call Hs Hr. unfold refresh_request. fold r1.
    destruct (send r1 (http (world st))) as [o h'] eqn:Hsend. simpl.
    intros ->. reflexivity.
  - intros e. token_call Hs Hr. unfold redeem_request. fold r2.
    destruct (send r2 (http (world st))) as [o h'] eqn:Hsend. simpl.
    intros ->. reflexivity.
Qed.

(** C9: [refresh_token()] and [redeem_refresh_token(resource)] leave the
    Session as it was whenever the request fails before the update: if
    [send] raises, or the body does not parse, or one of [expires_in],
    [access_token], [refresh_token] cannot be read from the parsed
    response, the error (of the first failing step) is the outcome of the
    call and the provider object with its Session is unchanged. *)
Theorem refresh_is_atomic (st : @State H Sess) (s : Sess) (resource : PyVal)
    (op : M (@State H Sess) unit) (request : Request) :
  _session (self st) = Some s ->
  SessionBase.refresh_token s <> PNone ->
  (op = refresh_token json_loads /\ request = refresh_request s)
  \/ (op = redeem_refresh_token json_loads resource
      /\ request = redeem_request (_auth_token_url (self st)) s resource) ->
  forall o h', send request (http (world st)) = (o, h') ->
    match o with
    | Raise e => fails_unchanged (op st) st e
    | Return response =>
        match json_loads (content response) with
        | Raise e => fails_unchanged (op st) st e
        | Return rcont =>
            forall k e,
              In k token_keys -> get_item rcont k = Raise e ->
              exists k' e',
                In k' token_keys /\ get_item rcont k' = Raise e'
                /\ fails_unchanged (op st) st e'
        end
    end.
Proof.
  intros Hs Hr Hop o h' Hsend. unfold fails_unchanged, token_keys.
  destruct Hop as [[-> ->] | [-> ->]]; token_call Hs Hr; rewrite Hsend; simpl.
  all: destruct o as [response | e]; simpl; [|auto].
  all: destruct (json_loads (content response)) as [rcont | e]; simpl; [|auto].
  all: intros k e Hk Hget.
  all: destruct (get_item rcont "expires_in") as [v1 | e1] eqn:H1; simpl;
    [|exists "expires_in", e1; simpl; auto].
  all: destruct (get_item rcont "access_token") as [v2 | e2] eqn:H2; simpl;
    [|exists "access_token", e2; simpl; auto].
  all: destruct (get_item rcont "refresh_token") as [v3 | e3] eqn:H3; simpl;
    [|exists "refresh_token", e3; simpl; auto 6].
  all: exfalso; simpl in Hk;
    destruct Hk as [<- | [<- | [<- | []]]]; congruence.
Qed.

(** Every run of [refresh_token] is seen once by the spy, and keeps a
    Session where there was one. *)
Lemma refresh_token_effect (st : @State H Sess) :
  calls "refresh_token" (trace (world (snd (refresh_token json_loads st))))
  = S (calls "refresh_token" (trace (world st)))
  /\ (_session (self st) <> None ->
      _session (self (snd (refresh_token json_loads st))) <> None).
Proof.
  unfold refresh_token, session_refresh_session; unfold_monad; simpl.
  destruct (_session (self st)) as [s|] eqn:Hs; simpl.
  - destruct (is_None (SessionBase.refresh_token s)); simpl.
    + rewrite calls_spy. split; congruence.
    + repeat (split_match; simpl);
        rewrite calls_send, calls_spy; (split; congruence).
  - rewrite calls_spy. split; congruence.
Qed.

(** C4, amended: with a Session present, [authenticate_request] calls
    [refresh_token] once if [is_expired()] is true and not at all
    otherwise; if that call raises, its error is the outcome and no header
    is appended; otherwise exactly one header option, Authorization:
    bearer followed by the access token of the Session as it then is, is
    appended to the request.  Both directions are stated: a raising
    outcome comes from the [refresh_token] call, and whatever that call
    does (raise or return, and the state it leaves) is what
    [authenticate_request] does. *)
Theorem authenticate_request_refreshes_once (request : RequestBase)
    (st : @State H Sess) (s : Sess) :
  _session (self st) = Some s ->
  let expired := SessionBase.is_expired s (clock (world st) (ticks (world st))) in
  forall o request' st',
    authenticate_request json_loads container_repr request st = (o, request', st') ->
    calls "refresh_token" (trace (world st'))
    = (calls "refresh_token" (trace (world st)) + (if expired then 1 else 0))%nat
    /\ match o with
       | Return _ =>
           exists s',
             _session (self st') = Some s'
             /\ request'
                = append_option
                    {| key := "Authorization";
                       value := "bearer "
                                ++ py_str container_repr (SessionBase.access_token s') |}
                    request
       | Raise e =>
           expired = true /\ request' = request
           /\ refresh_token json_loads (snd (time_time st)) = (Raise e, st')
       end
    /\ (expired = false ->
        o = Return tt /\ self st' = self st
        /\ trace (world st') = trace (world st)
        /\ http (world st') = http (world st))
    /\ (expired = true ->
        forall r st1,
          refresh_token json_loads (snd (time_time st)) = (r, st1) ->
          st' = st1
          /\ match r with
             | Raise e => o = Raise e /\ request' = request
             | Return _ =>
                 o = Return tt
                 /\ exists s',
                      _session (self st1) = Some s'
                      /\ request'
                         = append_option
                             {| key := "Authorization";
                                value := "bearer "
                                         ++ py_str container_repr
                                                   (SessionBase.access_token s') |}
                             request
             end).
Proof.
  intros Hs expired o request' st'.
  unfold authenticate_request, session_is_expired. rewrite Hs.
  unfold bind at 1. unfold bind at 1. unfold get_session at 1. unfold read at 1.
  rewrite Hs. unfold bind at 1.
  change (time_time st) with
    (Return (clock (world st) (ticks (world st))), snd (time_time st)).
  cbv beta iota. unfold ret at 1. fold expired.
  destruct expired eqn:He.
  - pose proof (refresh_token_effect (snd (time_time st))) as [Hc Hk].
    destruct (refresh_token json_loads (snd (time_time st))) as [[[]|e] st1] eqn:Hrt;
      simpl in Hc, Hk.
    + destruct (_session (self st1)) as [s1|] eqn:Hs1.
      * intros Heq; inversion Heq; subst. split; [rewrite Hc; simpl; lia|].
        split; [|split; [discriminate|]].
        -- exists s1. split; [assumption | reflexivity].
        -- intros _ r st2 Hr2. cbn [snd] in Hr2. rewrite Hrt in Hr2.
           inversion Hr2; subst.
           split; [reflexivity|]. split; [reflexivity|].
           exists s1. split; [assumption | reflexivity].
      * exfalso. apply Hk; [rewrite Hs; discriminate | reflexivity].
    + intros Heq; inversion Heq; subst. split; [rewrite Hc; simpl; lia|].
      split; [auto|]. split; [discriminate|].
      intros _ r st2 Hr2. cbn [snd] in Hr2. rewrite Hrt in Hr2.
      inversion Hr2; subst. auto.
  - unfold ret. simpl. rewrite Hs.
    intros Heq; inversion Heq; subst; simpl. split; [lia|].
    split; [|split; [auto | discriminate]].
    exists s. split; [assumption | reflexivity].
Qed.

(** The initiation phase of [authenticate] always ends in an exception:
    whatever the endpoint answers, the last step before [print] is the
    lookup of an attribute no parsed value has.  One request was sent,
    nothing was printed, the clock was not read, the provider is
    unchanged. *)
Lemma authenticate_init_raises (resource : PyVal) (st : @State H Sess) :
  exists e st',
    authenticate_init json_loads container_repr resource st = (Raise e, st')
    /\ self st' = self st
    /\ ticks (world st') = ticks (world st)
    /\ trace (world st')
       = (trace (world st)
          ++ [EvSend (init_request (_client_id (self st))
                                   (_auth_token_url (self st)) resource)])%list.
Proof.
  unfold authenticate_init, call_str; unfold_monad; simpl.
  repeat (split_match; simpl); eauto 10.
Qed.

Lemma authenticate_always_raises (fuel : nat) (resource : PyVal)
    (st : @State H Sess) :
  exists e st',
    authenticate json_loads container_repr fuel resource st = Some (Raise e, st')
    /\ self st' = self st
    /\ ticks (world st') = ticks (world st)
    /\ trace (world st')
       = (trace (world st)
          ++ [EvSend (init_request (_client_id (self st))
                                   (_auth_token_url (self st)) resource)])%list.
Proof.
  destruct (authenticate_init_raises resource st) as (e & st' & Hi & Hrest).
  exists e, st'. split; [|exact Hrest].
  unfold authenticate, bindF, total. rewrite Hi. reflexivity.
Qed.

End Properties.

(** C10: with [tenant_id] left at its default [None] the constructor
    raises (the concatenation that builds the token URL is a TypeError), and
    whenever the constructor returns a provider, [tenant_id] was a string
    [t], stored as such, and the provider's [auth_token_url] is
    [https://login.microsoftonline.com/] followed by [t] and
    [/oauth2/token]; it has no Session yet. *)
Theorem init_needs_string_tenant (interp : Interpreter)
    (client_id tenant_id access_token : PyVal)
    (session_type : option SessionBase.class) (loop : option EventLoop) :
  (exists msg,
     __init__ interp client_id PNone access_token session_type loop
     = Raise (TypeError msg))
  /\ (forall p,
        __init__ interp client_id tenant_id access_token session_type loop
        = Return p ->
        exists t,
          tenant_id = PStr t
          /\ _tenant_id p = PStr t
          /\ _auth_token_url p
             = PStr (("https://login.microsoftonline.com/" ++ t) ++ "/oauth2/token")
          /\ _session p = None).
Proof.
  split.
  - eexists. reflexivity.
  - intros p. unfold __init__.
    destruct tenant_id as [| b | z | t | l | d]; simpl; try discriminate.
    destruct (version_geb (version_info interp) (3, 4, 0)%nat).
    + destruct loop as [l|].
      * intros Hp; inversion Hp; subst; simpl. eauto.
      * destruct (get_event_loop interp) as [l|e]; [|discriminate].
        intros Hp; inversion Hp; subst; simpl. eauto.
    + intros Hp; inversion Hp; subst; simpl. eauto.
Qed.

(** ** The polling loop of [authenticate] *)

Section Polling.
Context {H : Type} {HP : HttpProviderBase H}.
Context {Sess : Type} {SO : SessionBase.Ops Sess}.
Variable json_loads : string -> Outcome PyVal.

Lemma poll_once_framed (request : Request) (st : @State H Sess) :
  framed st (snd (poll_once json_loads request st)).
Proof.
  unfold poll_once, framed; unfold_monad; simpl.
  destruct (send request (http (world st))) as [[response|e] h]; simpl; auto.
Qed.

Lemma time_sleep_framed (v : PyVal) (st : @State H Sess) :
  framed st (snd (time_sleep v st)).
Proof.
  unfold time_sleep, framed; unfold_monad.
  destruct v as [| b | z | | |]; simpl; auto.
  destruct (z <? 0); simpl; auto.
Qed.

Lemma time_sleep_ok (v : PyVal) (st : @State H Sess) :
  sleepable v = true -> fst (time_sleep v st) = Return tt.
Proof.
  unfold time_sleep, sleepable; unfold_monad.
  destruct v as [| b | z | | |]; simpl; try discriminate; auto.
  intros Hz. apply Z.leb_le in Hz.
  destruct (z <? 0) eqn:Hlt; [apply Z.ltb_lt in Hlt; lia | reflexivity].
Qed.

(** The loop has no [break]: it is left by its test alone.  When it
    returns, the clock reading that ended it was at or past the
    deadline, whatever the polls answered. *)
Lemma poll_loop_leaves_late (fuel : nat) (t_end : Z) (interval : PyVal)
    (request : Request) :
  forall (rcont : PyVal) (st : @State H Sess) o st',
    poll_loop json_loads fuel t_end interval request rcont st = Some (o, st') ->
    self st' = self st
    /\ clock (world st') = clock (world st)
    /\ ((exists v, o = Return v) ->
        exists i, ticks (world st') = S i
                  /\ (ticks (world st) <= i)%nat
                  /\ t_end <= clock (world st) i).
Proof.
  induction fuel as [|fuel IH]; intros rcont st o st'; simpl; [discriminate|].
  unfold bindF, total. unfold time_time at 1. cbv beta iota.
  set (st1 := {| self := self st;
                 world := {| http := http (world st); clock := clock (world st);
                             ticks := S (ticks (world st));
                             trace := trace (world st) |} |}).
  destruct (clock (world st) (ticks (world st)) <? t_end) eqn:Hlt.
  - pose proof (poll_once_framed request st1) as (Hs2 & Hc2 & Ht2).
    destruct (poll_once json_loads request st1) as [[v|e] st2]; simpl in *.
    + intros Hrun. apply IH in Hrun as (Hs & Hc & Hi).
      rewrite Hs, Hc, Hs2, Hc2. repeat split.
      intros Hv. destruct (Hi Hv) as (i & Hti & Hle & Hge).
      exists i. rewrite Hc2, Ht2 in *. repeat split; [assumption | lia | assumption].
    + pose proof (time_sleep_framed interval st2) as (Hs3 & Hc3 & Ht3).
      destruct (time_sleep interval st2) as [[[]|e'] st3]; simpl in *.
      * intros Hrun. apply IH in Hrun as (Hs & Hc & Hi).
        rewrite Hs, Hc, Hs3, Hc3, Hs2, Hc2. repeat split.
        intros Hv. destruct (Hi Hv) as (i & Hti & Hle & Hge).
        exists i. rewrite Hc3, Hc2, Ht3, Ht2 in *.
        repeat split; [assumption | lia | assumption].
      * intros Hrun; inversion Hrun; subst.
        rewrite Hs3, Hc3, Hs2, Hc2. repeat split.
        intros [v Hv]; discriminate.
  - unfold ret. intros Hrun; inversion Hrun; subst; simpl.
    repeat split. intros _. exists (ticks (world st)).
    apply Z.ltb_ge in Hlt. repeat split; [lia | assumption].
Qed.

(** Each turn of the loop reads the clock once, so the loop ends as soon
    as a reading reaches the deadline: fuel beyond the number of readings
    that takes is enough. *)
Lemma poll_loop_terminates (t_end : Z) (interval : PyVal) (request : Request) :
  forall (k fuel : nat) (rcont : PyVal) (st : @State H Sess),
    t_end <= clock (world st) (ticks (world st) + k)%nat ->
    (k < fuel)%nat ->
    exists o st',
      poll_loop json_loads fuel t_end interval request rcont st = Some (o, st')
      /\ (sleepable interval = true -> exists v, o = Return v).
Proof.
  induction k as [|k IH]; intros fuel rcont st Hk Hfuel;
    (destruct fuel as [|fuel]; [lia|]); simpl;
    unfold bindF, total; unfold time_time at 1; cbv beta iota;
    set (st1 := {| self := self st;
                   world := {| http := http (world st); clock := clock (world st);
                               ticks := S (ticks (world st));
                               trace := trace (world st) |} |}).
  - rewrite Nat.add_0_r in Hk.
    destruct (clock (world st) (ticks (world st)) <? t_end) eqn:Hlt;
      [apply Z.ltb_lt in Hlt; lia|].
    unfold ret. eauto.
  - destruct (clock (world st) (ticks (world st)) <? t_end) eqn:Hlt;
      [|unfold ret; eauto].
    pose proof (poll_once_framed request st1) as (Hs2 & Hc2 & Ht2).
    destruct (poll_once json_loads request st1) as [[v|e] st2]; simpl in *.
    + apply IH; [|lia]. rewrite Hc2, Ht2.
      replace (S (ticks (world st)) + k)%nat with (ticks (world st) + S k)%nat by lia.
      assumption.
    + pose proof (time_sleep_framed interval st2) as (Hs3 & Hc3 & Ht3).
      pose proof (time_sleep_ok interval st2) as Hok.
      destruct (time_sleep interval st2) as [[[]|e'] st3]; simpl in *.
      * apply IH; [|lia]. rewrite Hc3, Ht3, Hc2, Ht2.
        replace (S (ticks (world st)) + k)%nat with (ticks (world st) + S k)%nat by lia.
        assumption.
      * do 2 eexists. split; [reflexivity|].
        intros Hsl. specialize (Hok Hsl). discriminate.
Qed.

(** X2: With a clock that does not run backwards the resolution after the
    loop can only time out: the polling phase of [authenticate] never
    returns normally and never replaces the Session, whatever the
    endpoint answers. *)
Theorem authenticate_poll_never_authenticates (fuel : nat)
    (resource auth_url device_code expires_in interval : PyVal)
    (st : @State H Sess) o st' :
  monotone (clock (world st)) ->
  authenticate_poll json_loads fuel resource auth_url device_code expires_in
                    interval st = Some (o, st') ->
  (exists e, o = Raise e) /\ self st' = self st.
Proof.
  intros Hmono. unfold authenticate_poll, bindF, total.
  unfold read at 1. cbv beta iota. unfold time_time at 1. cbv beta iota.
  unfold lift at 1.
  destruct (py_int expires_in) as [n|e]; [|intros Hr; inversion Hr; subst; eauto].
  set (st1 := {| self := self st; world := _ |}).
  set (t_end := clock (world st) (ticks (world st)) + n).
  destruct (poll_loop json_loads fuel t_end interval _ PNone st1)
    as [[[rcont|e] st2]|] eqn:Hloop; [| |discriminate].
  - apply poll_loop_leaves_late in Hloop as (Hs & Hc & Hi).
    destruct Hi as (i & Hti & Hle & Hge); [eauto|].
    unfold time_time. cbv beta iota. rewrite Hc, Hti.
    change (clock (world st1)) with (clock (world st)) in *.
    assert (Hnow : t_end <= clock (world st) (S i)).
    { etransitivity; [exact Hge|]. apply Hmono. lia. }
    destruct (clock (world st) (S i) >=? t_end) eqn:Hge'.
    + unfold raise. intros Hr; inversion Hr; subst; simpl. split; [eauto|].
      rewrite Hs. reflexivity.
    + rewrite Z.geb_leb in Hge'. apply Z.leb_gt in Hge'. lia.
  - apply poll_loop_leaves_late in Hloop as (Hs & _ & _).
    intros Hr; inversion Hr; subst. split; [eauto|]. rewrite Hs. reflexivity.
Qed.

(** X3: The polling phase does end, and by the Timeout error, as soon as the
    clock reaches the deadline: also when polls were answered and
    parsed. *)
Theorem authenticate_poll_times_out
    (resource auth_url device_code expires_in interval : PyVal)
    (st : @State H Sess) (n : Z) (k : nat) :
  monotone (clock (world st)) ->
  py_int expires_in = Return n ->
  sleepable interval = true ->
  clock (world st) (ticks (world st)) + n
  <= clock (world st) (S (ticks (world st)) + k)%nat ->
  forall fuel, (k < fuel)%nat ->
  exists st',
    authenticate_poll json_loads fuel resource auth_url device_code expires_in
                      interval st = Some (Raise Timeout, st')
    /\ self st' = self st.
Proof.
  intros Hmono Hn Hsl Hk fuel Hfuel.
  unfold authenticate_poll, bindF, total.
  unfold read at 1. cbv beta iota. unfold time_time at 1. cbv beta iota.
  unfold lift at 1. rewrite Hn.
  set (st1 := {| self := self st; world := _ |}).
  set (t_end := clock (world st) (ticks (world st)) + n).
  destruct (poll_loop_terminates t_end interval
              (poll_request (_client_id (self st)) auth_url resource device_code)
              k fuel PNone st1 Hk Hfuel) as (o & st2 & Hloop & Hret).
  rewrite Hloop. destruct (Hret Hsl) as [v ->].
  apply poll_loop_leaves_late in Hloop as (Hs & Hc & Hi).
  destruct Hi as (i & Hti & Hle & Hge); [eauto|].
  unfold time_time. cbv beta iota. rewrite Hc, Hti.
  change (clock (world st1)) with (clock (world st)) in *.
  assert (Hnow : (clock (world st) (S i) >=? t_end) = true).
  { rewrite Z.geb_leb. apply Z.leb_le.
    etransitivity; [exact Hge|]. apply Hmono. lia. }
  rewrite Hnow. unfold raise. eexists. split; [reflexivity|].
  simpl. exact Hs.
Qed.
End Polling.

(** ** The default Session *)

(** With the default Session [redeem_refresh_token] never updates anything:
    whatever the endpoint answers, the four-argument call of
    [refresh_session] is refused (when it is reached at all), and the
    provider keeps the Session it had. *)
Lemma redeem_refresh_token_never_updates {H} {HP : HttpProviderBase H}
    (json_loads : string -> Outcome PyVal) (resource : PyVal)
    (st : @State H Session.t) :
  self (snd (redeem_refresh_token json_loads resource st)) = self st
  /\ fst (redeem_refresh_token json_loads resource st) <> Return tt.
Proof.
  unfold redeem_refresh_token, session_refresh_session. unfold_monad. simpl.
  destruct (_session (self st)) as [s|] eqn:Hs; simpl;
    [|split; [reflexivity | discriminate]].
  destruct (is_None (Session.refresh_token s)); simpl;
    [split; [reflexivity | discriminate]|].
  destruct (send _ (http (world st))) as [[response|e] h]; simpl;
    [|split; [reflexivity | discriminate]].
  destruct (json_loads (content response)) as [rcont|e]; simpl;
    [|split; [reflexivity | discriminate]].
  destruct (get_item rcont "expires_in"); simpl;
    [|split; [reflexivity | discriminate]].
  destruct (get_item rcont "access_token"); simpl;
    [|split; [reflexivity | discriminate]].
  destruct (get_item rcont "refresh_token"); simpl;
    [|split; [reflexivity | discriminate]].
  rewrite Hs. simpl. split; [|discriminate].
  destruct st as [[c t s0 u l] w]. simpl in *. subst. reflexivity.
Qed.

(** ** Runs on the fake endpoint *)


(** C1: the endpoint answers the initiation and then every poll with a
    token response, the clock advancing 400 s per reading against a
    deadline of 900 s.  [authenticate] raises the AttributeError of
    [.str()] after the initiation request and creates no Session.  The
    polling phase on its own, given the fields of that response, does not
    stop at the first parsed answer: it polls a second time, leaves the
    loop when the deadline has passed, raises Timeout, and creates no
    Session either. *)
Theorem authenticate_polls_past_first_answer :
  Demo.loads "token.json" = Return Demo.token_response
  /\ Demo.view
       (authenticate Demo.loads no_repr 10 Demo.resource
          (Demo.state None
             [Demo.ok "device_code.json"; Demo.ok "token.json";
              Demo.ok "token.json"]
             (Demo.steady 0 400)))
     = Some (Raise (AttributeError "'str' object has no attribute 'str'"),
             None, [EvSend Demo.init_form])
  /\ Demo.view
       (authenticate_poll Demo.loads 10 Demo.resource Demo.tenant_url
          (PStr "dc-1") (PInt 900) (PInt 5)
          (Demo.state None [Demo.ok "token.json"; Demo.ok "token.json"]
             (Demo.steady 0 400)))
     = Some (Raise Timeout, None, [EvSend Demo.poll_form; EvSend Demo.poll_form]).
Proof. repeat split; vm_compute; reflexivity. Qed.

(** C2: with a deadline of 1 s and an endpoint that fails every poll,
    [authenticate] raises the AttributeError of [.str()], not Timeout.
    The polling phase on its own raises Timeout when every poll fails and
    the prior Session stays; but it raises Timeout just as well when a
    poll was answered and parsed before the deadline (2 s, the clock
    advancing 1 s per reading). *)
Theorem authenticate_timeout_mismatch :
  Demo.view
    (authenticate Demo.loads no_repr 10 Demo.resource
       (Demo.state (Some (Demo.session PNone)) [Demo.ok "short_lived.json"]
          (Demo.steady 0 1)))
  = Some (Raise (AttributeError "'str' object has no attribute 'str'"),
          Some (Demo.session PNone), [EvSend Demo.init_form])
  /\ Demo.view
       (authenticate_poll Demo.loads 10 Demo.resource Demo.tenant_url
          (PStr "dc-1") (PInt 2) (PInt 1)
          (Demo.state (Some (Demo.session PNone)) [] (Demo.steady 0 1)))
     = Some (Raise Timeout, Some (Demo.session PNone), [EvSend Demo.poll_form])
  /\ fst (poll_once Demo.loads Demo.poll_form
            (Demo.state (Some (Demo.session PNone)) [Demo.ok "token.json"]
               (Demo.steady 0 1)))
     = Return Demo.token_response
  /\ Demo.view
       (authenticate_poll Demo.loads 10 Demo.resource Demo.tenant_url
          (PStr "dc-1") (PInt 2) (PInt 1)
          (Demo.state (Some (Demo.session PNone)) [Demo.ok "token.json"]
             (Demo.steady 0 1)))
     = Some (Raise Timeout, Some (Demo.session PNone), [EvSend Demo.poll_form]).
Proof. repeat split; vm_compute; reflexivity. Qed.

(** C3: a Session with access token [a0] and refresh token [r0]; the
    endpoint answers with a JSON object whose [access_token] is [a1].
    [redeem_refresh_token] passes four positional arguments to
    [refresh_session], the call is refused, and the Session still holds
    [a0]; [refresh_token()], on the same state, installs [a1]. *)
Theorem redeem_refresh_token_keeps_old_access_token :
  let st := Demo.signed_in 0 in
  option_map Session.access_token (_session (self st)) = Some (PStr "a0")
  /\ send (redeem_request Demo.tenant_url (Demo.session (PStr "r0")) Demo.resource)
          (http (world st)) = (Demo.ok "token.json", [])
  /\ Demo.loads "token.json" = Return Demo.token_response
  /\ get_item Demo.token_response "access_token" = Return (PStr "a1")
  /\ fst (redeem_refresh_token Demo.loads Demo.resource st)
     = Raise (TypeError
                "refresh_session() takes 4 positional arguments but 5 were given")
  /\ option_map Session.access_token
       (_session (self (snd (redeem_refresh_token Demo.loads Demo.resource st))))
     = Some (PStr "a0")
  /\ fst (refresh_token Demo.loads st) = Return tt
  /\ option_map Session.access_token
       (_session (self (snd (refresh_token Demo.loads st))))
     = Some (PStr "a1").
Proof. repeat split; vm_compute; reflexivity. Qed.

(** C4 as stated fails: the Session exists and is expired but holds no
    refresh token; [refresh_token] is called once and raises
    MissingRefreshToken, which is the outcome of [authenticate_request];
    the request has no header. *)
Lemma authenticate_request_expired_without_refresh_token :
  let st := Demo.stale in
  let request := {| options := [] |} in
  let '(o, request', st') :=
    authenticate_request Demo.loads no_repr request st in
  _session (self st) = Some (Demo.session PNone)
  /\ Session.is_expired (Demo.session PNone)
       (clock (world st) (ticks (world st))) = true
  /\ calls "refresh_token" (trace (world st')) = 1%nat
  /\ o = Raise MissingRefreshToken
  /\ ~ (exists h, options request' = (options request ++ [h])%list).
Proof.
  vm_compute. repeat split.
  intros [h Hh]. discriminate.
Qed.


(** ** The theorems at work on the fake endpoint *)

Lemma authenticate_request_without_session_witness :
  _session (self Demo.unauthenticated) = None
  /\ exists e,
      authenticate_request Demo.loads no_repr {| options := [] |} Demo.unauthenticated
      = (Raise e, {| options := [] |}, Demo.unauthenticated)
      /\ e = RuntimeError session_must_be_authenticated_request
      /\ is_NotAuthenticated e = true.
Proof.
  split; [reflexivity|].
  apply (authenticate_request_without_session Demo.loads no_repr).
  reflexivity.
Defined.

Lemma refresh_token_preconditions_witness :
  _session (self Demo.unauthenticated) = None
  /\ Session.refresh_token (Demo.session PNone) = PNone
  /\ (exists st',
        refresh_token Demo.loads Demo.unauthenticated
        = (Raise (RuntimeError session_must_be_authenticated_refresh), st')
        /\ self st' = self Demo.unauthenticated)
  /\ (exists st',
        refresh_token Demo.loads Demo.stale = (Raise MissingRefreshToken, st')
        /\ self st' = self Demo.stale
        /\ http (world st') = http (world Demo.stale)
        /\ sends (trace (world st')) = sends (trace (world Demo.stale))).
Proof.
  split; [reflexivity|]. split; [reflexivity|]. split.
  - destruct (proj1 (refresh_token_preconditions Demo.loads Demo.unauthenticated)
                eq_refl) as (st' & Hrun & _ & Hself & _).
    exists st'. split; assumption.
  - exact (proj2 (refresh_token_preconditions (SO := Session.ops) Demo.loads
                  Demo.stale)
             (Demo.session PNone) eq_refl eq_refl).
Defined.

Lemma refresh_and_redeem_endpoints_witness :
  _session (self (Demo.signed_in 0)) = Some (Demo.session (PStr "r0"))
  /\ Session.refresh_token (Demo.session (PStr "r0")) <> PNone
  /\ Session.auth_token_url (Demo.session (PStr "r0"))
     <> _auth_token_url (self (Demo.signed_in 0))
  /\ sends (trace (world (snd (refresh_token Demo.loads (Demo.signed_in 0)))))
     = [EvSend {| method := "POST"; headers := form_headers;
                  url := PStr "https://login.example/token";
                  data := [("refresh_token", PStr "r0");
                           ("client_id", PStr "client-1");
                           ("grant_type", PStr "refresh_token")] |}]
  /\ sends (trace (world (snd (redeem_refresh_token Demo.loads Demo.resource
                                                    (Demo.signed_in 0)))))
     = [EvSend {| method := "POST"; headers := form_headers;
                  url := Demo.tenant_url;
                  data := [("client_id", PStr "client-1");
                           ("refresh_token", PStr "r0");
                           ("grant_type", PStr "refresh_token");
                           ("resource", Demo.resource)] |}]
  /\ PStr "https://login.example/token" <> Demo.tenant_url
  /\ http (world (Demo.signed_in 0)) = [Demo.ok "token.json"]
  /\ http (world (snd (refresh_token Demo.loads (Demo.signed_in 0)))) = []
  /\ http (world (snd (redeem_refresh_token Demo.loads Demo.resource
                                            (Demo.signed_in 0)))) = [].
Proof.
  assert (Hr : Session.refresh_token (Demo.session (PStr "r0")) <> PNone)
    by (simpl; discriminate).
  assert (Hu : Session.auth_token_url (Demo.session (PStr "r0"))
               <> _auth_token_url (self (Demo.signed_in 0)))
    by (simpl; discriminate).
  destruct (refresh_and_redeem_endpoints (SO := Session.ops) Demo.loads
              (Demo.signed_in 0)
              (Demo.session (PStr "r0")) Demo.resource eq_refl Hr)
    as (H1 & H2 & H3 & H4 & H5 & _).
  split; [reflexivity|]. split; [exact Hr|]. split; [exact Hu|].
  split; [exact H1|]. split; [exact H2|]. split; [exact (proj1 (H3 Hu))|].
  split; [reflexivity|]. split; [exact H4 | exact H5].
Defined.

Lemma refresh_is_atomic_witness :
  _session (self Demo.cut_off) = Some (Demo.session (PStr "r0"))
  /\ Session.refresh_token (Demo.session (PStr "r0")) <> PNone
  /\ send (refresh_request (Demo.session (PStr "r0"))) (http (world Demo.cut_off))
     = (Raise connection_error, tt)
  /\ fails_unchanged (refresh_token Demo.loads Demo.cut_off) Demo.cut_off
                     connection_error.
Proof.
  assert (Hr : Session.refresh_token (Demo.session (PStr "r0")) <> PNone)
    by (simpl; discriminate).
  split; [reflexivity|]. split; [exact Hr|]. split; [reflexivity|].
  exact (refresh_is_atomic (SO := Session.ops) Demo.loads Demo.cut_off
           (Demo.session (PStr "r0"))
           Demo.resource (refresh_token Demo.loads)
           (refresh_request (Demo.session (PStr "r0")))
           eq_refl Hr (or_introl (conj eq_refl eq_refl))
           (Raise connection_error) tt eq_refl).
Defined.

Lemma authenticate_request_refreshes_once_witness :
  let r := authenticate_request Demo.loads no_repr {| options := [] |}
                                (Demo.signed_in 4000) in
  _session (self (Demo.signed_in 4000)) = Some (Demo.session (PStr "r0"))
  /\ r = (fst (fst r), snd (fst r), snd r)
  /\ calls "refresh_token" (trace (world (snd r))) = 1%nat
  /\ fst (fst r) = Return tt
  /\ options (snd (fst r)) = [{| key := "Authorization"; value := "bearer a1" |}]
  /\ let q := authenticate_request Demo.loads no_repr {| options := [] |}
                                   Demo.stale in
     let t := refresh_token Demo.loads (snd (time_time Demo.stale)) in
     _session (self Demo.stale) = Some (Demo.session PNone)
     /\ q = (fst (fst q), snd (fst q), snd q)
     /\ t = (Raise MissingRefreshToken, snd t)
     /\ fst (fst q) = Raise MissingRefreshToken
     /\ snd (fst q) = {| options := [] |}
     /\ snd q = snd t.
Proof.
  intros r.
  assert (E : r = (fst (fst r), snd (fst r), snd r)) by (vm_compute; reflexivity).
  pose proof (authenticate_request_refreshes_once (SO := Session.ops)
                Demo.loads no_repr
                {| options := [] |} (Demo.signed_in 4000)
                (Demo.session (PStr "r0")) eq_refl
                (fst (fst r)) (snd (fst r)) (snd r) E) as (Hcalls & _ & _).
  split; [reflexivity|]. split; [exact E|]. split; [exact Hcalls|].
  split; [vm_compute; reflexivity|]. split; [vm_compute; reflexivity|].
  intros q t.
  assert (Eq : q = (fst (fst q), snd (fst q), snd q)) by (vm_compute; reflexivity).
  assert (Et : t = (Raise MissingRefreshToken, snd t)) by (vm_compute; reflexivity).
  destruct (authenticate_request_refreshes_once (SO := Session.ops)
              Demo.loads no_repr
              {| options := [] |} Demo.stale
              (Demo.session PNone) eq_refl
              (fst (fst q)) (snd (fst q)) (snd q) Eq)
    as (_ & _ & _ & Hconv).
  destruct (Hconv eq_refl (Raise MissingRefreshToken) (snd t) Et)
    as (Hst & Ho & Hreq).
  split; [reflexivity|]. split; [exact Eq|]. split; [exact Et|].
  split; [exact Ho|]. split; [exact Hreq | exact Hst].
Defined.


Lemma init_needs_string_tenant_witness :
  __init__ Demo.python3 (PStr "client-1") (PStr "contoso") PNone None None
  = Return (Demo.provider None)
  /\ exists t,
      PStr "contoso" = PStr t
      /\ _tenant_id (Demo.provider None) = PStr t
      /\ _auth_token_url (Demo.provider None)
         = PStr (("https://login.microsoftonline.com/" ++ t) ++ "/oauth2/token")
      /\ _session (Demo.provider None) = None.
Proof.
  split; [reflexivity|].
  exact (proj2 (init_needs_string_tenant Demo.python3 (PStr "client-1")
                  (PStr "contoso") PNone None None)
           (Demo.provider None) eq_refl).
Defined.

Lemma steady_monotone (start step : Z) :
  0 <= step -> monotone (Demo.steady start step).
Proof. unfold monotone, Demo.steady. intros Hs i j Hij. nia. Qed.

(** * The rest of the provider *)

(** ** [get_auth_url] *)

Lemma all_chars_app (f : ascii -> bool) (s t : string) :
  all_chars f (s ++ t) = (all_chars f s && all_chars f t)%bool.
Proof.
  induction s as [|c s IH]; simpl; [reflexivity|].
  rewrite IH. apply andb_assoc.
Qed.

Lemma space_to_plus_app (s t : string) :
  space_to_plus (s ++ t) = space_to_plus s ++ space_to_plus t.
Proof. induction s as [|c s IH]; simpl; [reflexivity | now rewrite IH]. Qed.

(** One byte, as [quote_plus] leaves it. *)
Lemma quoted_byte (c : ascii) :
  let q := space_to_plus
             (if (always_safe c || Ascii.eqb c " ")%bool then String c EmptyString
              else percent c) in
  all_chars query_char q = true
  /\ forall rest, unquote_plus (q ++ rest) = String c (unquote_plus rest).
Proof.
  destruct c as [[] [] [] [] [] [] [] []]; split; try reflexivity;
    intros rest; reflexivity.
Qed.

(** With no space in the string the two branches of [quote_plus] agree. *)
Lemma quote_without_space (s : string) :
  has_space s = false ->
  quote (fun _ => false) s
  = space_to_plus (quote (fun c => Ascii.eqb c " ") s).
Proof.
  induction s as [|c s IH]; simpl; [reflexivity|].
  intros Hs. apply orb_false_iff in Hs as [Hc Hs].
  rewrite space_to_plus_app, <- (IH Hs), Hc, orb_false_r. f_equal.
  destruct (always_safe c) eqn:Ha; simpl.
  - rewrite Hc. reflexivity.
  - clear. destruct c as [[] [] [] [] [] [] [] []]; reflexivity.
Qed.

Lemma quote_plus_unfold (s : string) :
  quote_plus s = space_to_plus (quote (fun c => Ascii.eqb c " ") s).
Proof.
  unfold quote_plus. destruct (has_space s) eqn:Hs; [reflexivity|].
  apply quote_without_space, Hs.
Qed.

Lemma quote_plus_query_chars (s : string) :
  all_chars query_char (quote_plus s) = true.
Proof.
  rewrite quote_plus_unfold.
  induction s as [|c s IH]; simpl; [reflexivity|].
  rewrite space_to_plus_app, all_chars_app, IH, andb_true_r.
  apply (quoted_byte c).
Qed.

Lemma unquote_quote_plus (s : string) : unquote_plus (quote_plus s) = s.
Proof.
  rewrite quote_plus_unfold.
  induction s as [|c s IH]; simpl; [reflexivity|].
  rewrite space_to_plus_app, (proj2 (quoted_byte c)), IH. reflexivity.
Qed.

(** X13: [get_auth_url] is the token URL, a question mark and a query of exactly
    two parameters, [client_id] then [resource].  Each value consists of
    letters, digits, [_.-~], percent escapes and plus signs only, so that
    no value can add or cut a parameter, and decoding it gives back the
    string the value stood for. *)
Theorem get_auth_url_query {Sess} (container_repr : PyVal -> string)
    (p : AuthProvider Sess) (resource : PyVal) :
  exists a b,
    get_auth_url container_repr p resource
    = py_str container_repr (auth_token_url p)
      ++ "?client_id=" ++ a ++ "&resource=" ++ b
    /\ all_chars query_char a = true
    /\ all_chars query_char b = true
    /\ unquote_plus a = py_str container_repr (client_id p)
    /\ unquote_plus b = py_str container_repr resource.
Proof.
  exists (quote_plus (py_str container_repr (client_id p))),
         (quote_plus (py_str container_repr resource)).
  split; [|repeat split; auto using quote_plus_query_chars, unquote_quote_plus].
  unfold get_auth_url, urlencode, auth_token_url, join, map, fst, snd.
  change (quote_plus "client_id") with "client_id".
  change (quote_plus "resource") with "resource".
  reflexivity.
Qed.

(** The example of the documentation: a resource URL among the query
    parameters. *)
Example get_auth_url_res :
  get_auth_url no_repr (Demo.provider None) (PStr "https://res")
  = "https://login.microsoftonline.com/contoso/oauth2/token"
    ++ "?client_id=client-1&resource=https%3A%2F%2Fres".
Proof. reflexivity. Qed.

Example quote_plus_space :
  quote_plus "a b&c=d/~" = "a+b%26c%3Dd%2F~"
  /\ unquote_plus "a+b%26c%3Dd%2F~" = "a b&c=d/~".
Proof. split; reflexivity. Qed.

(** ** The constructor and the setters *)

(** X11: The constructor returns a provider exactly when [tenant_id] is a string
    and an event loop is at hand where one is needed: the interpreter is
    older than 3.4, or a loop was passed, or [asyncio.get_event_loop()]
    returns one.  The provider stores [client_id] as given; before 3.4 it
    has no loop even when one was passed, from 3.4 on a loop that was
    passed is the one it keeps. *)
Theorem init_outcome (interp : Interpreter)
    (client_id tenant_id access_token : PyVal)
    (session_type : option SessionBase.class) (loop : option EventLoop) :
  let modern := version_geb (version_info interp) (3, 4, 0)%nat in
  ((exists p, __init__ interp client_id tenant_id access_token session_type loop
              = Return p)
   <-> is_str tenant_id = true
       /\ (modern = false \/ loop <> None
           \/ exists l, get_event_loop interp = Return l))
  /\ (forall p,
        __init__ interp client_id tenant_id access_token session_type loop
        = Return p ->
        _client_id p = client_id
        /\ (modern = false -> _loop p = None)
        /\ (modern = true -> forall l, loop = Some l -> _loop p = Some l)).
Proof.
  intros modern. unfold __init__. fold modern. split.
  - split.
    + intros [p Hp].
      destruct tenant_id; simpl in *; try discriminate. split; [reflexivity|].
      destruct modern; [|auto].
      destruct loop as [l|]; [right; left; discriminate|].
      destruct (get_event_loop interp) as [l|e]; [eauto | discriminate].
    + intros [Ht Hl].
      destruct tenant_id; simpl in *; try discriminate.
      destruct modern; [|eauto].
      destruct loop as [l|]; [eauto|].
      destruct Hl as [Hl | [Hl | [l Hl]]]; [discriminate | congruence|].
      rewrite Hl. eauto.
  - intros p.
    destruct tenant_id; simpl; try discriminate.
    destruct modern.
    + destruct loop as [l|].
      * intros Hp; inversion Hp; subst; simpl.
        repeat split; [discriminate | congruence].
      * destruct (get_event_loop interp) as [l|e]; [|discriminate].
        intros Hp; inversion Hp; subst; simpl.
        repeat split; [discriminate | discriminate].
    + intros Hp; inversion Hp; subst; simpl.
      repeat split; discriminate.
Qed.

(** What the constructor stores. *)
Lemma init_stores (interp : Interpreter) (cid tenant access : PyVal)
    (session_type : option SessionBase.class) (loop : option EventLoop)
    (p : AuthProvider (SessionBase.instance (resolve session_type))) :
  __init__ interp cid tenant access session_type loop = Return p ->
  _client_id p = cid
  /\ forall t, tenant = PStr t ->
       _auth_token_url p = PStr ((login_prefix ++ t) ++ token_suffix).
Proof.
  unfold __init__.
  destruct tenant; simpl; try discriminate.
  destruct (version_geb (version_info interp) (3, 4, 0)%nat).
  - destruct loop as [l|].
    + intros Hp; inversion Hp; subst; simpl.
      split; [reflexivity|]. intros t Ht; inversion Ht; reflexivity.
    + destruct (get_event_loop interp) as [l|e]; [|discriminate].
      intros Hp; inversion Hp; subst; simpl.
      split; [reflexivity|]. intros t Ht; inversion Ht; reflexivity.
  - intros Hp; inversion Hp; subst; simpl.
    split; [reflexivity|]. intros t Ht; inversion Ht; reflexivity.
Qed.

(** X12: The URL of the token endpoint is derived from the tenant once, by the
    constructor: assigning [tenant_id] afterwards changes the property and
    nothing else.  [auth_token_url] and [get_auth_url] still name the
    tenant the provider was built with, and so does the request
    [authenticate] sends. *)
Theorem tenant_id_setter_keeps_url (interp : Interpreter)
    (cid access : PyVal) (t : string)
    (session_type : option SessionBase.class) (loop : option EventLoop)
    (p : AuthProvider (SessionBase.instance (resolve session_type)))
    (v : PyVal) :
  __init__ interp cid (PStr t) access session_type loop = Return p ->
  let built_for := PStr ((login_prefix ++ t) ++ token_suffix) in
  tenant_id (set_tenant_id v p) = v
  /\ auth_token_url (set_tenant_id v p) = built_for
  /\ (forall repr r,
        get_auth_url repr (set_tenant_id v p) r = get_auth_url repr p r)
  /\ (forall H (HP : HttpProviderBase H) json_loads repr fuel resource
             (w : World H),
        exists e st',
          authenticate (SO := SessionBase.ops (resolve session_type))
            json_loads repr fuel resource
            {| self := set_tenant_id v p; world := w |}
          = Some (Raise e, st')
          /\ trace (world st')
             = (trace w ++ [EvSend (init_request cid built_for resource)])%list).
Proof.
  intros Hp built_for.
  destruct (init_stores interp cid (PStr t) access session_type loop p Hp)
    as (Hc & Hu).
  specialize (Hu t eq_refl).
  repeat split.
  - exact Hu.
  - intros H HP json_loads repr fuel resource w.
    destruct (authenticate_always_raises (SO := SessionBase.ops (resolve session_type))
                json_loads repr fuel resource
                {| self := set_tenant_id v p; world := w |})
      as (e & st' & Hrun & _ & _ & Htrace).
    exists e, st'. split; [exact Hrun|].
    rewrite Htrace. simpl. rewrite Hc, Hu. reflexivity.
Qed.

(** ** What the operations leave alone *)

Ltac case_step :=
  match goal with
  | |- context [send ?r ?h] => destruct (send r h) as [? ?] eqn:?
  | |- context [SessionBase.refresh_session ?a ?n ?x] =>
      destruct (SessionBase.refresh_session a n x) as [? ?] eqn:?
  | |- context [match ?x with _ => _ end] => destruct x eqn:?
  end.

(** The trace of the goal is the trace of [st] and some more events, each
    of them a form-encoded POST. *)
Ltac grown :=
  first
    [ exists (@nil Event); split; [symmetry; apply app_nil_r | constructor]
    | eexists; split; [reflexivity | repeat constructor]
    | rewrite <- !app_assoc; eexists; split;
      [reflexivity | repeat constructor] ].

Section Frames.
Context {H : Type} {HP : HttpProviderBase H}.
Context {Sess : Type} {SO : SessionBase.Ops Sess}.
Variable json_loads : string -> Outcome PyVal.
Variable container_repr : PyVal -> string.

Lemma reached_refl (st : @State H Sess) : reached st st.
Proof.
  split; [repeat split|]. exists []. split; [symmetry; apply app_nil_r | constructor].
Qed.

Lemma reached_trans (a b c : @State H Sess) :
  reached a b -> reached b c -> reached a c.
Proof.
  intros [(A1 & A2 & A3 & A4) (t & Ht & Hf)] [(B1 & B2 & B3 & B4) (u & Hu & Hg)].
  split; [repeat split; congruence|].
  exists (t ++ u)%list. split; [rewrite Hu, Ht, app_assoc; reflexivity|].
  apply Forall_app; auto.
Qed.

Lemma refresh_token_reached (st : @State H Sess) :
  reached st (snd (refresh_token json_loads st))
  /\ has_session (self (snd (refresh_token json_loads st)))
     = has_session (self st).
Proof.
  unfold reached, same_config, has_session, refresh_token,
    session_refresh_session, refresh_request.
  unfold_monad. simpl.
  repeat (case_step; simpl);
    (split; [split; [repeat split | grown] | try reflexivity; try congruence]).
Qed.

Lemma redeem_refresh_token_reached (resource : PyVal) (st : @State H Sess) :
  reached st (snd (redeem_refresh_token json_loads resource st))
  /\ has_session (self (snd (redeem_refresh_token json_loads resource st)))
     = has_session (self st).
Proof.
  unfold reached, same_config, has_session, redeem_refresh_token,
    session_refresh_session, redeem_request.
  unfold_monad. simpl.
  repeat (case_step; simpl);
    (split; [split; [repeat split | grown] | try reflexivity; try congruence]).
Qed.

Lemma time_time_reached (st : @State H Sess) :
  reached st (snd (time_time st))
  /\ self (snd (time_time st)) = self st.
Proof.
  unfold reached, same_config, time_time. simpl.
  split; [split; [repeat split | grown] | reflexivity].
Qed.

Lemma authenticate_request_reached (request : RequestBase)
    (st : @State H Sess) o request' st' :
  authenticate_request json_loads container_repr request st
  = (o, request', st') ->
  reached st st' /\ has_session (self st') = has_session (self st).
Proof.
  unfold authenticate_request, session_is_expired.
  destruct (_session (self st)) as [s|] eqn:Hs;
    [|intros Hr; inversion Hr; subst; split; [apply reached_refl | reflexivity]].
  unfold bind at 1. unfold bind at 1. unfold get_session at 1. unfold read at 1.
  rewrite Hs. unfold bind at 1.
  change (time_time st) with
    (Return (clock (world st) (ticks (world st))), snd (time_time st)).
  cbv beta iota. unfold ret at 1.
  destruct (time_time_reached st) as [Ht Hself].
  destruct (SessionBase.is_expired s _).
  - destruct (refresh_token_reached (snd (time_time st))) as [Hr Hh].
    rewrite Hself in Hh.
    destruct (refresh_token json_loads (snd (time_time st))) as [[[]|e] st1];
      simpl in Hr, Hh.
    + destruct (_session (self st1)); intros Heq; inversion Heq; subst;
        (split; [exact (reached_trans _ _ _ Ht Hr) | assumption]).
    + intros Heq; inversion Heq; subst.
      split; [exact (reached_trans _ _ _ Ht Hr) | assumption].
  - unfold ret. cbv beta iota.
    change (_session (self (snd (time_time st)))) with (_session (self st)).
    rewrite Hs. intros Heq; inversion Heq; subst.
    split; [exact Ht | reflexivity].
Qed.

Lemma poll_once_reached (request : Request) (st : @State H Sess) :
  form_post (EvSend request) ->
  reached st (snd (poll_once json_loads request st)).
Proof.
  intros Hreq. unfold reached, same_config, poll_once. unfold_monad. simpl.
  repeat (case_step; simpl); (split; [repeat split|]);
    (eexists; split; [reflexivity | repeat constructor; apply Hreq]).
Qed.

Lemma time_sleep_reached (v : PyVal) (st : @State H Sess) :
  reached st (snd (time_sleep v st)).
Proof.
  unfold reached, same_config, time_sleep. unfold_monad.
  destruct v as [| b | z | | |]; simpl; try (split; [repeat split | grown]).
  destruct (z <? 0); simpl; (split; [repeat split | grown]).
Qed.

Lemma poll_loop_reached (fuel : nat) (t_end : Z) (interval : PyVal)
    (request : Request) :
  form_post (EvSend request) ->
  forall (rcont : PyVal) (st : @State H Sess) o st',
    poll_loop json_loads fuel t_end interval request rcont st = Some (o, st') ->
    reached st st'.
Proof.
  intros Hreq.
  induction fuel as [|fuel IH]; intros rcont st o st'; simpl; [discriminate|].
  unfold bindF, total.
  change (time_time st) with
    (Return (clock (world st) (ticks (world st))), snd (time_time st)).
  cbv beta iota.
  destruct (time_time_reached st) as [Ht _].
  destruct (_ <? t_end).
  - pose proof (poll_once_reached request (snd (time_time st)) Hreq) as Hp.
    destruct (poll_once json_loads request (snd (time_time st))) as [[v|e] st2];
      simpl in Hp.
    + intros Hrun. apply IH in Hrun.
      exact (reached_trans _ _ _ (reached_trans _ _ _ Ht Hp) Hrun).
    + pose proof (time_sleep_reached interval st2) as Hs.
      destruct (time_sleep interval st2) as [[[]|e'] st3]; simpl in Hs.
      * intros Hrun. apply IH in Hrun.
        exact (reached_trans _ _ _
                 (reached_trans _ _ _ (reached_trans _ _ _ Ht Hp) Hs) Hrun).
      * intros Hrun; inversion Hrun; subst.
        exact (reached_trans _ _ _ (reached_trans _ _ _ Ht Hp) Hs).
  - unfold ret. intros Hrun; inversion Hrun; subst. exact Ht.
Qed.

Lemma new_session_reached (rcont : PyVal) (st : @State H Sess) :
  reached st (snd (new_session rcont st)).
Proof.
  unfold reached, same_config, new_session. unfold_monad. simpl.
  repeat (match goal with
          | |- context [contains ?k ?v] =>
              destruct (contains k v) as [[|]|] eqn:?
          | |- context [match ?x with _ => _ end] => destruct x eqn:?
          end; simpl);
    (split; [repeat split | grown]).
Qed.

Lemma authenticate_poll_reached (fuel : nat)
    (resource auth_url device_code expires_in interval : PyVal)
    (st : @State H Sess) o st' :
  authenticate_poll json_loads fuel resource auth_url device_code expires_in
                    interval st = Some (o, st') ->
  reached st st'.
Proof.
  unfold authenticate_poll, bindF, total.
  unfold read at 1. cbv beta iota.
  change (time_time st) with
    (Return (clock (world st) (ticks (world st))), snd (time_time st)).
  cbv beta iota. unfold lift at 1.
  destruct (time_time_reached st) as [Ht _].
  destruct (py_int expires_in) as [n|e];
    [|intros Hr; inversion Hr; subst; exact Ht].
  destruct (poll_loop json_loads fuel _ interval _ PNone (snd (time_time st)))
    as [[[rcont|e] st2]|] eqn:Hloop; [| |discriminate].
  - apply poll_loop_reached in Hloop; [|split; reflexivity].
    change (time_time st2) with
      (Return (clock (world st2) (ticks (world st2))), snd (time_time st2)).
    cbv beta iota.
    destruct (time_time_reached st2) as [Ht2 _].
    destruct (_ >=? _).
    + unfold raise. intros Hr; inversion Hr; subst.
      exact (reached_trans _ _ _ (reached_trans _ _ _ Ht Hloop) Ht2).
    + intros Hr.
      assert (Hn : new_session rcont (snd (time_time st2)) = (o, st'))
        by (injection Hr; auto).
      pose proof (new_session_reached rcont (snd (time_time st2))) as Hnew.
      rewrite Hn in Hnew. simpl in Hnew.
      exact (reached_trans _ _ _
               (reached_trans _ _ _ (reached_trans _ _ _ Ht Hloop) Ht2) Hnew).
  - apply poll_loop_reached in Hloop; [|split; reflexivity].
    intros Hr; inversion Hr; subst. exact (reached_trans _ _ _ Ht Hloop).
Qed.
End Frames.

Section Operations.
Context {H : Type} {HP : HttpProviderBase H}.
Context {Sess : Type} {SO : SessionBase.Ops Sess}.
Variable json_loads : string -> Outcome PyVal.
Variable container_repr : PyVal -> string.

(** X9: No operation touches the provider's settings: [client_id],
    [tenant_id], [auth_token_url] and the event loop are after
    [refresh_token], [redeem_refresh_token], [authenticate_request], the
    polling phase and [authenticate] what they were before, whatever the
    endpoint answers and however the call ends.  The first three and
    [authenticate] also never create a Session where there was none, nor
    drop the one there was. *)
Theorem operations_keep_settings (st : @State H Sess) (resource : PyVal)
    (request : RequestBase) (fuel : nat)
    (auth_url device_code expires_in interval : PyVal) :
  (let st' := snd (refresh_token json_loads st) in
   same_config (self st) (self st')
   /\ has_session (self st') = has_session (self st))
  /\ (let st' := snd (redeem_refresh_token json_loads resource st) in
      same_config (self st) (self st')
      /\ has_session (self st') = has_session (self st))
  /\ (let st' := snd (authenticate_request json_loads container_repr request st) in
      same_config (self st) (self st')
      /\ has_session (self st') = has_session (self st))
  /\ match authenticate_poll json_loads fuel resource auth_url device_code
           expires_in interval st with
     | Some (_, st') => same_config (self st) (self st')
     | None => True
     end
  /\ match authenticate json_loads container_repr fuel resource st with
     | Some (_, st') => self st' = self st
     | None => False
     end.
Proof.
  split; [|split; [|split; [|split]]].
  - destruct (refresh_token_reached json_loads st) as [[Hc _] Hh]. auto.
  - destruct (redeem_refresh_token_reached json_loads resource st)
      as [[Hc _] Hh]. auto.
  - destruct (authenticate_request json_loads container_repr request st)
      as [[o r] st'] eqn:Hrun.
    apply authenticate_request_reached in Hrun as [[Hc _] Hh]. auto.
  - destruct (authenticate_poll json_loads fuel resource auth_url device_code
                expires_in interval st) as [[o st']|] eqn:Hrun; [|exact I].
    apply authenticate_poll_reached in Hrun as [Hc _]. exact Hc.
  - destruct (authenticate_always_raises json_loads container_repr fuel
                resource st) as (e & st' & Hrun & Hself & _).
    rewrite Hrun. exact Hself.
Qed.

(** X10: Whatever an operation does, it only adds to what has been observed,
    and what it adds is harmless: every request sent by [refresh_token],
    [redeem_refresh_token], [authenticate_request], the polling phase or
    [authenticate] is a POST with the form-encoded content type, and
    nothing is ever printed. *)
Theorem operations_send_form_posts (st : @State H Sess) (resource : PyVal)
    (request : RequestBase) (fuel : nat)
    (auth_url device_code expires_in interval : PyVal) :
  let grows (st' : @State H Sess) :=
    exists t, trace (world st') = (trace (world st) ++ t)%list
              /\ Forall form_post t in
  grows (snd (refresh_token json_loads st))
  /\ grows (snd (redeem_refresh_token json_loads resource st))
  /\ grows (snd (authenticate_request json_loads container_repr request st))
  /\ match authenticate_poll json_loads fuel resource auth_url device_code
           expires_in interval st with
     | Some (_, st') => grows st'
     | None => True
     end
  /\ match authenticate json_loads container_repr fuel resource st with
     | Some (_, st') => grows st'
     | None => False
     end.
Proof.
  intros grows. unfold grows. split; [|split; [|split; [|split]]].
  - apply (refresh_token_reached json_loads st).
  - apply (redeem_refresh_token_reached json_loads resource st).
  - destruct (authenticate_request json_loads container_repr request st)
      as [[o r] st'] eqn:Hrun.
    apply authenticate_request_reached in Hrun as [[_ Ht] _]. exact Ht.
  - destruct (authenticate_poll json_loads fuel resource auth_url device_code
                expires_in interval st) as [[o st']|] eqn:Hrun; [|exact I].
    apply authenticate_poll_reached in Hrun as [_ Ht]. exact Ht.
  - destruct (authenticate_always_raises json_loads container_repr fuel
                resource st) as (e & st' & Hrun & _ & _ & Htrace).
    rewrite Hrun. eexists. split; [exact Htrace|].
    repeat constructor.
Qed.

(** X8: [redeem_refresh_token] checks what [refresh_token] checks: without a
    Session it raises the RuntimeError of an unauthenticated provider,
    with a Session that has no refresh token the RuntimeError of the
    missing refresh token; in both cases nothing at all has happened: no
    request, no clock reading, the state is the one before the call. *)
Theorem redeem_refresh_token_preconditions (resource : PyVal)
    (st : @State H Sess) :
  (_session (self st) = None ->
   redeem_refresh_token json_loads resource st
   = (Raise (RuntimeError session_must_be_authenticated_redeem), st))
  /\ (forall s, _session (self st) = Some s ->
        SessionBase.refresh_token s = PNone ->
        redeem_refresh_token json_loads resource st
        = (Raise MissingRefreshToken, st)).
Proof.
  unfold redeem_refresh_token, bind, get_session, read. split.
  - intros Hs. rewrite Hs. reflexivity.
  - intros s Hs Hr. rewrite Hs, Hr. reflexivity.
Qed.

(** X1: [authenticate] never signs in: for every provider, resource and
    endpoint it ends by raising, after exactly one request (the
    initiation form, sent to the provider's token URL with its client id),
    with nothing printed and the clock not read; the provider, its
    Session and so its [access_token] are what they were, and the
    capability is as that one request left it. *)
Theorem authenticate_never_signs_in (fuel : nat) (resource : PyVal)
    (st : @State H Sess) :
  let form := {| method := "POST"; headers := form_headers;
                 url := auth_token_url (self st);
                 data := [("client_id", client_id (self st));
                          ("resource", resource)] |} in
  exists e st',
    authenticate json_loads container_repr fuel resource st = Some (Raise e, st')
    /\ self st' = self st
    /\ access_token (self st') = access_token (self st)
    /\ http (world st') = snd (send form (http (world st)))
    /\ ticks (world st') = ticks (world st)
    /\ trace (world st') = (trace (world st) ++ [EvSend form])%list.
Proof.
  intros form. subst form.
  unfold authenticate, authenticate_init, bindF, total, call_str, init_request,
    auth_token_url, client_id, access_token.
  unfold_monad. simpl.
  destruct (send _ (http (world st))) as [[response|e] h]; simpl.
  - destruct (json_loads (content response)) as [rcont|e]; simpl.
    + destruct (get_item rcont "device_code"); simpl;
        [|do 2 eexists; repeat (split; [reflexivity|]); reflexivity].
      destruct (get_item rcont "expires_in"); simpl;
        [|do 2 eexists; repeat (split; [reflexivity|]); reflexivity].
      destruct (get_item rcont "interval"); simpl;
        [|do 2 eexists; repeat (split; [reflexivity|]); reflexivity].
      destruct (get_item rcont "message"); simpl;
        do 2 eexists; repeat (split; [reflexivity|]); reflexivity.
    + do 2 eexists; repeat (split; [reflexivity|]); reflexivity.
  - do 2 eexists; repeat (split; [reflexivity|]); reflexivity.
Qed.
End Operations.

(** ** The success path of [authenticate_request] *)

Section Refreshing.
Context {H : Type} {HP : HttpProviderBase H}.
Context {Sess : Type} {SO : SessionBase.Ops Sess}.
Variable json_loads : string -> Outcome PyVal.
Variable container_repr : PyVal -> string.

(** X7: An expired Session with a refresh token, an endpoint that answers the
    refresh form with a JSON object holding [expires_in], [access_token]
    and [refresh_token], and a Session that accepts the update: then
    [authenticate_request] returns, the provider holds the Session as
    [refresh_session] left it, and the one header appended carries the
    access token of that updated Session, not the stale one.  The clock
    was read twice, one request was sent. *)
Theorem authenticate_request_uses_refreshed_token (request : RequestBase)
    (st : @State H Sess) (s s1 : Sess) (response : Response) (h' : H)
    (rcont expires new_access new_refresh : PyVal) :
  _session (self st) = Some s ->
  SessionBase.is_expired s (clock (world st) (ticks (world st))) = true ->
  SessionBase.refresh_token s <> PNone ->
  send (refresh_request s) (http (world st)) = (Return response, h') ->
  json_loads (content response) = Return rcont ->
  get_item rcont "expires_in" = Return expires ->
  get_item rcont "access_token" = Return new_access ->
  get_item rcont "refresh_token" = Return new_refresh ->
  SessionBase.refresh_session [expires; new_access; new_refresh]
    (clock (world st) (S (ticks (world st)))) s = (Return tt, s1) ->
  exists st',
    authenticate_request json_loads container_repr request st
    = (Return tt,
       append_option
         {| key := "Authorization";
            value := "bearer "
                     ++ py_str container_repr (SessionBase.access_token s1) |}
         request,
       st')
    /\ _session (self st') = Some s1
    /\ same_config (self st) (self st')
    /\ http (world st') = h'
    /\ ticks (world st') = S (S (ticks (world st)))
    /\ trace (world st')
       = (trace (world st)
          ++ [EvCall "refresh_token"; EvSend (refresh_request s)])%list.
Proof.
  intros Hs He Hr Hsend Hjson H1 H2 H3 Hup.
  unfold authenticate_request, session_is_expired, refresh_token,
    session_refresh_session.
  unfold_monad. simpl. rewrite Hs. simpl. rewrite He. simpl. rewrite Hs. simpl.
  rewrite (is_None_false _ Hr). simpl. rewrite Hsend. simpl.
  rewrite Hjson. simpl. rewrite H1, H2, H3. simpl. rewrite Hs. simpl.
  rewrite Hup. simpl.
  eexists. split; [reflexivity|]. rewrite <- app_assoc. simpl.
  repeat split.
Qed.

(** X6: [new_session] is all or nothing.  If it raises, the provider is
    untouched; without a parsed poll response ([rcont] still [None]) it
    does raise.  If it returns, the response had [token_type],
    [expires_in] and [access_token], the Session class was called with
    them, the provider's [client_id] and [auth_token_url], and the
    response's [refresh_token] or [None] when it has none, and what the
    class returned is now the provider's Session. *)
Theorem new_session_all_or_nothing (rcont : PyVal) (st : @State H Sess) :
  match new_session rcont st with
  | (Raise _, st') => self st' = self st
  | (Return _, st') =>
      exists ty ei at_ s,
        get_item rcont "token_type" = Return ty
        /\ get_item rcont "expires_in" = Return ei
        /\ get_item rcont "access_token" = Return at_
        /\ SessionBase.init
             [ty; ei; at_; client_id (self st); auth_token_url (self st);
              match get_item rcont "refresh_token" with
              | Return v => v
              | Raise _ => PNone
              end]
             (clock (world st) (ticks (world st))) = Return s
        /\ _session (self st') = Some s
        /\ same_config (self st) (self st')
  end
  /\ fst (new_session PNone st)
     = Raise (TypeError "'NoneType' object is not subscriptable").
Proof.
  split; [|reflexivity].
  unfold new_session, client_id, auth_token_url. unfold_monad.
  destruct rcont as [| b | z | x | l | d]; simpl; try reflexivity.
  destruct (assoc "token_type" d) as [ty|]; simpl; [|reflexivity].
  destruct (assoc "expires_in" d) as [ei|]; simpl; [|reflexivity].
  destruct (assoc "access_token" d) as [at_|]; simpl; [|reflexivity].
  destruct (assoc "refresh_token" d) as [rt|]; simpl;
    (destruct (SessionBase.init _ _) as [s|e] eqn:Hinit; simpl;
     [|reflexivity]);
    (exists ty, ei, at_, s; repeat split; exact Hinit).
Qed.
End Refreshing.

(** ** What the polling loop does, turn by turn *)

Section Turns.
Context {H : Type} {HP : HttpProviderBase H}.
Context {Sess : Type} {SO : SessionBase.Ops Sess}.
Variable json_loads : string -> Outcome PyVal.


(** One poll: the capability answers, the answer is parsed or not. *)
Lemma poll_once_answer (request : Request) (st : @State H Sess) :
  let answer := fst (send request (http (world st))) in
  let st' := with_http (snd (send request (http (world st))))
                       (log (EvSend request) st) in
  snd (poll_once json_loads request st) = st'
  /\ match parsed json_loads answer with
     | Some v => fst (poll_once json_loads request st) = Return v
     | None => exists e, fst (poll_once json_loads request st) = Raise e
     end.
Proof.
  unfold poll_once, parsed. unfold_monad. simpl.
  destruct (send request (http (world st))) as [[response|e] h]; simpl;
    [|eauto].
  destruct (json_loads (content response)); simpl; eauto.
Qed.


(** X5: A polling interval that arrives as a JSON string stops the retrying at
    the first poll that fails: [time.sleep] refuses the string, and its
    TypeError leaves [authenticate]'s polling phase after one request,
    well before the deadline, with the provider untouched. *)
Theorem string_interval_stops_polling (fuel : nat)
    (resource auth_url device_code expires_in : PyVal) (secs : string)
    (st : @State H Sess) (n : Z) :
  py_int expires_in = Return n ->
  clock (world st) (S (ticks (world st)))
  < clock (world st) (ticks (world st)) + n ->
  parsed json_loads
    (fst (send (poll_request (_client_id (self st)) auth_url resource
                             device_code)
               (http (world st)))) = None ->
  exists msg st',
    authenticate_poll json_loads (S fuel) resource auth_url device_code
                      expires_in (PStr secs) st
    = Some (Raise (TypeError msg), st')
    /\ self st' = self st
    /\ ticks (world st') = S (S (ticks (world st)))
    /\ trace (world st')
       = (trace (world st)
          ++ [EvSend (poll_request (_client_id (self st)) auth_url resource
                                   device_code)])%list.
Proof.
  intros Hn Hearly Hfail.
  unfold authenticate_poll, bindF, total.
  unfold read at 1. cbv beta iota. unfold time_time at 1. cbv beta iota.
  unfold lift at 1. rewrite Hn. simpl poll_loop.
  unfold bindF, total. unfold time_time at 1.
  cbn [world clock ticks self http trace]. cbv beta iota.
  apply Z.ltb_lt in Hearly. rewrite Hearly.
  set (request := poll_request (_client_id (self st)) auth_url resource
                               device_code) in *.
  match goal with
  | |- context [poll_once json_loads request ?s] => set (st1 := s)
  end.
  destruct (poll_once_answer request st1) as [Hst2 Hans].
  change (http (world st1)) with (http (world st)) in *.
  rewrite Hfail in Hans. destruct Hans as [e He].
  destruct (poll_once json_loads request st1) as [out st2].
  simpl in Hst2, He. subst out st2.
  unfold time_sleep, raise. simpl.
  do 2 eexists. split; [reflexivity|]. repeat split.
Qed.
End Turns.

(** ** Saving and loading *)

Section Saving.
Context {H Sess D : Type} {PO : SessionStore.Ops Sess D}.

(** X14: Without a Session [save_session] raises its RuntimeError before the
    Session's own [save_session] is called: the provider and the backing
    store are exactly what they were. *)
Theorem save_session_without_session (kwargs : list (string * PyVal))
    (ps : @Stored H Sess D) :
  _session (self (state ps)) = None ->
  save_session kwargs ps
  = (Raise (RuntimeError session_must_be_authenticated_save), ps).
Proof. intros Hs. unfold save_session. rewrite Hs. reflexivity. Qed.

(** X15: [load_session] assigns the provider's Session only once the class has
    returned one.  If loading raises, the error is the outcome and the
    provider keeps the Session it had; if it returns, the loaded Session
    replaces whatever was there, and the result does not depend on the
    Session the provider held before.  Settings and world are untouched
    either way. *)
Theorem load_session_replaces (kwargs : list (string * PyVal))
    (ps : @Stored H Sess D) :
  let r := load_session kwargs ps in
  same_config (self (state ps)) (self (state (snd r)))
  /\ world (state (snd r)) = world (state ps)
  /\ store (snd r) = snd (SessionStore.load_session kwargs (store ps))
  /\ match fst (SessionStore.load_session kwargs (store ps)) with
     | Raise e => fst r = Raise e /\ self (state (snd r)) = self (state ps)
     | Return s =>
         fst r = Return tt
         /\ forall prior,
              _session
                (self (state (snd (load_session kwargs
                                     {| state := with_session prior (state ps);
                                        store := store ps |}))))
              = Some s
     end.
Proof.
  unfold load_session, same_config. simpl.
  destruct (SessionStore.load_session kwargs (store ps)) as [[s|e] d]; simpl;
    repeat split.
Qed.

(** X16: Saving and loading with the same options brings the Session back,
    provided the store does what a store is for: whenever the Session's
    [save_session] returns, [load_session] with the same options on the
    store it left returns the Session as saved.  Then after a
    [save_session] that returned, [load_session] on any provider sharing
    the store, whatever Session that provider holds, returns and leaves it
    with the very Session the saving provider holds. *)
Theorem save_then_load (kwargs : list (string * PyVal))
    (ps : @Stored H Sess D) (other : @State H Sess) :
  (forall kw s d s' d',
      SessionStore.save_session kw s d = (Return tt, s', d') ->
      fst (SessionStore.load_session kw d') = Return s') ->
  fst (save_session kwargs ps) = Return tt ->
  let saved := snd (save_session kwargs ps) in
  let r := load_session kwargs {| state := other; store := store saved |} in
  fst r = Return tt
  /\ _session (self (state (snd r))) = _session (self (state saved))
  /\ has_session (self (state saved)) = true
  /\ same_config (self other) (self (state (snd r))).
Proof.
  intros Hlaw. unfold save_session, load_session, same_config, has_session.
  destruct (_session (self (state ps))) as [s|]; simpl; [|discriminate].
  destruct (SessionStore.save_session kwargs s (store ps)) as [[o s'] d] eqn:Hsave.
  simpl. intros ->. apply Hlaw in Hsave.
  destruct (SessionStore.load_session kwargs d) as [[s2|e] d2];
    simpl in *; [|discriminate].
  inversion Hsave; subst. repeat split.
Qed.
End Saving.


(** ** The further theorems at work *)

Lemma authenticate_poll_times_out_witness :
  monotone (clock (world (Demo.signed_in 0)))
  /\ py_int (PInt 2) = Return 2
  /\ sleepable (PInt 1) = true
  /\ exists st',
      authenticate_poll Demo.loads 3 Demo.resource Demo.tenant_url (PStr "dc-1")
                        (PInt 2) (PInt 1) (Demo.signed_in 0)
      = Some (Raise Timeout, st')
      /\ self st' = self (Demo.signed_in 0).
Proof.
  assert (Hm : monotone (clock (world (Demo.signed_in 0))))
    by (apply steady_monotone; lia).
  split; [exact Hm|]. split; [reflexivity|]. split; [reflexivity|].
  apply (authenticate_poll_times_out Demo.loads Demo.resource Demo.tenant_url
           (PStr "dc-1") (PInt 2) (PInt 1) (Demo.signed_in 0) 2 1%nat
           Hm eq_refl eq_refl).
  - vm_compute. discriminate.
  - lia.
Defined.

Lemma authenticate_poll_never_authenticates_witness :
  monotone (clock (world (Demo.signed_in 0)))
  /\ exists o st',
      authenticate_poll Demo.loads 5 Demo.resource Demo.tenant_url (PStr "dc-1")
                        (PInt 2) (PInt 1) (Demo.signed_in 0)
      = Some (o, st')
      /\ (exists e, o = Raise e)
      /\ self st' = self (Demo.signed_in 0).
Proof.
  assert (Hm : monotone (clock (world (Demo.signed_in 0))))
    by (apply steady_monotone; lia).
  split; [exact Hm|].
  destruct (authenticate_poll Demo.loads 5 Demo.resource Demo.tenant_url
              (PStr "dc-1") (PInt 2) (PInt 1) (Demo.signed_in 0))
    as [[o st']|] eqn:E; [|vm_compute in E; discriminate].
  exists o, st'. split; [reflexivity|].
  exact (authenticate_poll_never_authenticates Demo.loads 5 Demo.resource
           Demo.tenant_url (PStr "dc-1") (PInt 2) (PInt 1) (Demo.signed_in 0)
           o st' Hm E).
Defined.


Lemma string_interval_stops_polling_witness :
  py_int (PInt 900) = Return 900
  /\ clock (world Demo.cut_off) 1%nat < clock (world Demo.cut_off) 0%nat + 900
  /\ parsed Demo.loads
       (fst (send Demo.poll_form (http (world Demo.cut_off)))) = None
  /\ exists msg st',
      authenticate_poll Demo.loads 1 Demo.resource Demo.tenant_url (PStr "dc-1")
                        (PInt 900) (PStr "5") Demo.cut_off
      = Some (Raise (TypeError msg), st')
      /\ self st' = self Demo.cut_off
      /\ trace (world st') = [EvSend Demo.poll_form].
Proof.
  split; [reflexivity|]. split; [vm_compute; reflexivity|].
  split; [reflexivity|].
  destruct (string_interval_stops_polling (HP := unreachable_host)
              (SO := Session.ops) Demo.loads 0 Demo.resource Demo.tenant_url
              (PStr "dc-1") (PInt 900) "5" Demo.cut_off 900 eq_refl)
    as (msg & st' & Hrun & Hself & _ & Htrace);
    [vm_compute; reflexivity | reflexivity |].
  exists msg, st'. repeat split; assumption.
Defined.

Lemma redeem_refresh_token_preconditions_witness :
  _session (self Demo.unauthenticated) = None
  /\ _session (self Demo.stale) = Some (Demo.session PNone)
  /\ Session.refresh_token (Demo.session PNone) = PNone
  /\ redeem_refresh_token Demo.loads Demo.resource Demo.unauthenticated
     = (Raise (RuntimeError session_must_be_authenticated_redeem),
        Demo.unauthenticated)
  /\ redeem_refresh_token Demo.loads Demo.resource Demo.stale
     = (Raise MissingRefreshToken, Demo.stale).
Proof.
  split; [reflexivity|]. split; [reflexivity|]. split; [reflexivity|]. split.
  - exact (proj1 (redeem_refresh_token_preconditions (SO := Session.ops)
                    Demo.loads Demo.resource Demo.unauthenticated) eq_refl).
  - exact (proj2 (redeem_refresh_token_preconditions (SO := Session.ops)
                    Demo.loads Demo.resource Demo.stale)
             (Demo.session PNone) eq_refl eq_refl).
Defined.

Lemma authenticate_request_uses_refreshed_token_witness :
  let s := Demo.session (PStr "r0") in
  let s1 := snd (Session.refresh_session [PStr "3600"; PStr "a1"; PStr "r1"]
                   4001 s) in
  _session (self (Demo.signed_in 4000)) = Some s
  /\ Session.is_expired s 4000 = true
  /\ Session.refresh_token s <> PNone
  /\ Session.access_token s = PStr "a0"
  /\ Session.access_token s1 = PStr "a1"
  /\ exists st',
      authenticate_request Demo.loads no_repr {| options := [] |}
                           (Demo.signed_in 4000)
      = (Return tt,
         {| options := [{| key := "Authorization"; value := "bearer a1" |}] |},
         st')
      /\ _session (self st') = Some s1.
Proof.
  intros s s1.
  assert (Hr : Session.refresh_token s <> PNone) by (simpl; discriminate).
  split; [reflexivity|]. split; [reflexivity|]. split; [exact Hr|].
  split; [reflexivity|]. split; [reflexivity|].
  destruct (authenticate_request_uses_refreshed_token (HP := scripted)
              (SO := Session.ops) Demo.loads no_repr {| options := [] |}
              (Demo.signed_in 4000) s s1 {| content := "token.json" |} []
              Demo.token_response (PStr "3600") (PStr "a1") (PStr "r1")
              eq_refl eq_refl Hr eq_refl eq_refl eq_refl eq_refl eq_refl
              eq_refl)
    as (st' & Hrun & Hs1 & _).
  exists st'. split; [exact Hrun | exact Hs1].
Defined.

Lemma tenant_id_setter_keeps_url_witness :
  __init__ Demo.python3 (PStr "client-1") (PStr "contoso") PNone None None
  = Return (Demo.provider None)
  /\ tenant_id (set_tenant_id (PStr "fabrikam") (Demo.provider None))
     = PStr "fabrikam"
  /\ auth_token_url (set_tenant_id (PStr "fabrikam") (Demo.provider None))
     = Demo.tenant_url.
Proof.
  split; [reflexivity|].
  destruct (tenant_id_setter_keeps_url Demo.python3 (PStr "client-1") PNone
              "contoso" None None (Demo.provider None) (PStr "fabrikam")
              eq_refl)
    as (Ht & Hu & _).
  split; [exact Ht | exact Hu].
Defined.

Lemma init_outcome_witness :
  (exists p, __init__ Demo.python3 (PStr "client-1") (PStr "contoso") PNone
                      None None = Return p)
  /\ ~ (exists p, __init__ Fixtures.no_loop (PStr "client-1") (PStr "contoso")
                           PNone None None = Return p)
  /\ (__init__ Fixtures.python2 (PStr "client-1") (PStr "contoso") PNone None
               (Some (event_loop 7))
      = Return {| _client_id := PStr "client-1"; _tenant_id := PStr "contoso";
                  _session := None; _auth_token_url := Demo.tenant_url;
                  _loop := None |}).
Proof.
  split; [|split].
  - apply (proj1 (init_outcome Demo.python3 (PStr "client-1") (PStr "contoso")
                    PNone None None)).
    split; [reflexivity|]. right. right. exists (event_loop 0). reflexivity.
  - intros Hp.
    apply (proj1 (init_outcome Fixtures.no_loop (PStr "client-1")
                    (PStr "contoso") PNone None None)) in Hp
      as [_ [Hm | [Hl | [l Hl]]]].
    + discriminate.
    + apply Hl. reflexivity.
    + discriminate.
  - reflexivity.
Defined.

Lemma shelf_keeps (kw : list (string * PyVal)) (s : Session.t)
    (d : Fixtures.Shelf) (s' : Session.t) (d' : Fixtures.Shelf) :
  SessionStore.save_session kw s d = (Return tt, s', d') ->
  fst (SessionStore.load_session kw d') = Return s'.
Proof.
  simpl. destruct (Fixtures.path_of kw) as [p|e] eqn:Hp; [|discriminate].
  intros Hsave; inversion Hsave; subst. simpl.
  rewrite String.eqb_refl. reflexivity.
Qed.

Lemma save_session_without_session_witness :
  let ps := {| state := Demo.unauthenticated;
               store := ([] : Fixtures.Shelf) |} in
  _session (self (state ps)) = None
  /\ save_session (Fixtures.at_path "session.pickle") ps
     = (Raise (RuntimeError session_must_be_authenticated_save), ps).
Proof.
  intros ps. split; [reflexivity|].
  apply (save_session_without_session (PO := Fixtures.shelf)). reflexivity.
Defined.

Lemma save_then_load_witness :
  let ps := {| state := Demo.signed_in 0; store := ([] : Fixtures.Shelf) |} in
  let kwargs := Fixtures.at_path "session.pickle" in
  let saved := snd (save_session kwargs ps) in
  let r := load_session kwargs
             {| state := Demo.unauthenticated; store := store saved |} in
  fst (save_session kwargs ps) = Return tt
  /\ fst r = Return tt
  /\ _session (self (state (snd r))) = Some (Demo.session (PStr "r0")).
Proof.
  intros ps kwargs saved r. split; [reflexivity|].
  destruct (save_then_load (PO := Fixtures.shelf) kwargs ps
              Demo.unauthenticated shelf_keeps eq_refl)
    as (Hr & Hs & _).
  split; [exact Hr | exact Hs].
Defined.
